(** * bit: the [tag] and [merge] commands

    A shallow embedding of [scopes/component/snapping/tag-cmd.ts]
    ([TagCmd.report]) and of the merge command ([MergeCmd.report],
    [mergeReport] and its helpers), followed by the properties of the
    flag validation, the flag resolution and the merge report.

    JavaScript values that the commands inspect dynamically ([typeof],
    truthiness, destructuring defaults) are kept as a tagged union.  The
    commands run in a small state-and-exception monad whose world holds a
    trace of the observable events (console warnings, calls of the engine)
    and the store the engine works on. *)

From Stdlib Require Import String Ascii List Bool Arith Lia ZArith.
From Stdlib Require Import DecimalString.
Import ListNotations.

Open Scope string_scope.
Open Scope list_scope.

Notation "a +++ b" := (String.append a b) (at level 60, right associativity).

(** ** JavaScript values *)

Module Js.

Inductive value :=
  | Undefined
  | Boolean (b : bool)
  | Str (s : string)
  | Num (z : Z).

Inductive type_tag := TUndefined | TBoolean | TString | TNumber.

Definition typeof (v : value) : type_tag :=
    match v with
    | Undefined => TUndefined
    | Boolean _ => TBoolean
    | Str _ => TString
    | Num _ => TNumber
    end.

Definition is_boolean (v : value) : bool :=
    match v with Boolean _ => true | _ => false end.

Definition is_string (v : value) : bool :=
    match v with Str _ => true | _ => false end.

  (** [if (v)], [!v], [v && ...]: the falsy values are [undefined],
      [false], the empty string and [0]. *)
Definition truthy (v : value) : bool :=
    match v with
    | Undefined => false
    | Boolean b => b
    | Str s => negb (s =? "")
    | Num z => negb (z =? 0)%Z
    end.

  (** A destructuring default [{ x = d }] applies when the property is
      [undefined]. *)
Definition default (d v : value) : value :=
    match v with Undefined => d | _ => v end.

  (** [a || b] *)
Definition or (a b : value) : value := if truthy a then a else b.

  (** [x === 's'] for a string literal. *)
Definition is_str (v : value) (s : string) : bool :=
    match v with Str t => (t =? s) | _ => false end.

  (** [arr.includes(v)] on an array of strings (strict equality). *)
Definition includes (arr : list string) (v : value) : bool :=
    match v with Str t => existsb (String.eqb t) arr | _ => false end.

Definition nat_to_string (n : nat) : string :=
    NilZero.string_of_uint (Nat.to_uint n).

  (** Interpolation of a value in a template literal. *)
Definition to_string (v : value) : string :=
    match v with
    | Undefined => "undefined"
    | Boolean true => "true"
    | Boolean false => "false"
    | Str s => s
    | Num z => NilZero.string_of_int (Z.to_int z)
    end.

  (** [obj.k] on an object given by the list of its properties. *)
Definition prop (obj : list (string * value)) (k : string) : value :=
  match find (fun kv => fst kv =? k) obj with
  | Some (_, v) => v
  | None => Undefined
  end.

  (** [arr.join(sep)] *)
Definition join (sep : string) (arr : list string) : string :=
    String.concat sep arr.

End Js.

(** The double quote and the line feed, which occur in the messages. *)
Definition dq : string := String (ascii_of_nat 34) EmptyString.
Definition nl : string := String (ascii_of_nat 10) EmptyString.

(** ** Errors and effects *)

(** What can be thrown: the [BitError] of the commands, the [TypeError]
    of the runtime, and any other error of a collaborator. *)
Inductive Exn :=
| BitError (msg : string)
| TypeError (msg : string)
| OtherError (msg : string).

Inductive Res (A : Type) :=
| Ok (a : A)
| Throw (e : Exn).
Arguments Ok {A} a.
Arguments Throw {A} e.

Definition is_throw {A} (r : Res A) : bool :=
  match r with Throw _ => true | Ok _ => false end.

Module Eff.
Section Eff.
Variables (Ev St : Type).

  (** What a command can observe and change: the events it has emitted
      so far, oldest first, and the store behind the engine. *)
Record World := mkWorld { trace : list Ev; store : St }.

Definition M (A : Type) := World -> Res A * World.

Definition ret {A} (a : A) : M A := fun w => (Ok a, w).

Definition throw {A} (e : Exn) : M A := fun w => (Throw e, w).

Definition bind {A B} (m : M A) (k : A -> M B) : M B :=
    fun w =>
      match m w with
      | (Ok a, w') => k a w'
      | (Throw e, w') => (Throw e, w')
      end.

Definition emit (e : Ev) : M unit :=
    fun w => (Ok tt, {| trace := trace w ++ [e]; store := store w |}).

  (** A call into the engine: the call is recorded, the engine runs on
      the store. *)
Definition call {A} (e : Ev) (f : St -> Res A * St) : M A :=
    fun w =>
      let (r, s) := f (store w) in
      (r, {| trace := trace w ++ [e]; store := s |}).

Definition lift {A} (r : Res A) : M A := fun w => (r, w).

Definition when (b : bool) (m : M unit) : M unit :=
    if b then m else ret tt.

End Eff.
End Eff.

Arguments Eff.mkWorld {Ev St}.
Arguments Eff.trace {Ev St}.
Arguments Eff.store {Ev St}.
Arguments Eff.ret {Ev St A}.
Arguments Eff.throw {Ev St A}.
Arguments Eff.bind {Ev St A B}.
Arguments Eff.emit {Ev St}.
Arguments Eff.call {Ev St A}.
Arguments Eff.lift {Ev St A}.
Arguments Eff.when {Ev St}.

Declare Scope eff_scope.
Delimit Scope eff_scope with eff.
Notation "x <- m ;; k" := (Eff.bind m (fun x => k))
  (at level 61, m at next level, right associativity) : eff_scope.
Notation "m ;; k" := (Eff.bind m (fun _ => k))
  (at level 61, right associativity) : eff_scope.

Definition res_bind {A B} (r : Res A) (k : A -> Res B) : Res B :=
  match r with Ok a => k a | Throw e => Throw e end.

(** The [chalk] styling functions, an external library. *)
Class Chalk := {
  chalk_bold : string -> string;
  chalk_underline : string -> string;
  chalk_bold_underline : string -> string;
  chalk_yellow : string -> string;
  chalk_green : string -> string;
  chalk_red : string -> string;
  chalk_white : string -> string;
  chalk_cyan : string -> string
}.


(** ** The tag command: [tag-cmd.ts] *)

Definition RELEASE_TYPES : list string :=
  ["major"; "premajor"; "minor"; "preminor"; "patch"; "prepatch"; "prerelease"].

(** Modelled from the spec: the constant [DEFAULT_BIT_RELEASE_TYPE] of
    [@teambit/legacy/dist/constants], which is not under src/.  The spec
    names patch as the default, and so does the help text of
    [--increment] in [TagCmd.options] ("default to patch"). *)
Definition DEFAULT_BIT_RELEASE_TYPE : string := "patch".

(** The second argument of [TagCmd.report], as the command-line parser
    hands it over: a property is [undefined] when its flag is absent,
    [true] for a bare flag and a string for a flag with a value. *)
Module TagFlags.
Record t := mk {
  message : Js.value;
  ver : Js.value;
  all : Js.value;
  editor : Js.value;
  snapped : Js.value;
  unmerged : Js.value;
  patch : Js.value;
  minor : Js.value;
  major : Js.value;
  preRelease : Js.value;
  increment : Js.value;
  prereleaseId : Js.value;
  force : Js.value;
  ignoreUnresolvedDependencies : Js.value;
  ignoreIssues : Js.value;
  ignoreNewestVersion : Js.value;
  skipTests : Js.value;
  skipAutoTag : Js.value;
  scope : Js.value;
  unmodified : Js.value;
  build : Js.value;
  soft : Js.value;
  persist : Js.value;
  disableDeployPipeline : Js.value;
  disableTagPipeline : Js.value;
  forceDeploy : Js.value;
  incrementBy : Js.value
}.

(** The flags object given by its properties, as in
    [{ increment: 'major', preRelease: 'dev' }]; a property that is not
    listed is [undefined]. *)
Definition of_object (obj : list (string * Js.value)) : t :=
  let p := Js.prop obj in
  mk (p "message") (p "ver") (p "all") (p "editor") (p "snapped") (p "unmerged")
     (p "patch") (p "minor") (p "major") (p "preRelease") (p "increment")
     (p "prereleaseId") (p "force") (p "ignoreUnresolvedDependencies")
     (p "ignoreIssues") (p "ignoreNewestVersion") (p "skipTests") (p "skipAutoTag")
     (p "scope") (p "unmodified") (p "build") (p "soft") (p "persist")
     (p "disableDeployPipeline") (p "disableTagPipeline") (p "forceDeploy")
     (p "incrementBy").
End TagFlags.

(** The object [params] that [TagCmd.report] hands to [snapping.tag]. *)
Module TagParams.
Record t := mk {
  ids : list string;
  snapped : Js.value;
  unmerged : Js.value;
  editor : Js.value;
  message : Js.value;
  releaseType : Js.value;
  preReleaseId : Js.value;
  ignoreIssues : Js.value;
  ignoreNewestVersion : Js.value;
  skipTests : Js.value;
  skipAutoTag : Js.value;
  build : Js.value;
  soft : Js.value;
  persist : Js.value;
  unmodified : Js.value;
  disableTagAndSnapPipelines : Js.value;
  forceDeploy : Js.value;
  incrementBy : Js.value;
  version : Js.value
}.
End TagParams.

(** What the two commands import and do not define: component
    identities and their methods, the constants of the legacy API, the
    feature toggle, and the store the engines work on. *)
Class Host := {
  Store : Type;
  Component : Type;
  BitId : Type;
  BitIds : Type;
  component_id : Component -> BitId;
  idToString : BitId -> string;
  idToStringWithoutVersion : BitId -> string;
  searchWithoutVersion : BitIds -> BitId -> bool;
  searchWithoutScopeAndVersion : BitIds -> BitId -> bool;
  NOTHING_TO_TAG_MSG : string;
  AUTO_TAGGED_MSG : string;
  AUTO_SNAPPED_MSG : string;
  MergeConfigFilename : string;
  FileStatus_manual : string;
  BUILD_ON_CI : string;
  isFeatureEnabled : string -> bool
}.

Record AutoTagResult `{Host} := {
  component : Component;
  triggeredBy : BitIds
}.

Record TagResults `{Host} := {
  taggedComponents : list Component;
  autoTaggedResults : option (list AutoTagResult);
  warnings : option (list string);
  newComponents : BitIds;
  publishedPackages : option (list string);
  isSoftTag : bool
}.

(** [SnappingMain], of which the command uses the method [tag]; it
    resolves to a falsy value when there is nothing to tag. *)
Class SnappingMain `{Host} := {
  tag : TagParams.t -> Store -> Res (option TagResults) * Store
}.

Inductive TagEvent :=
| ConsoleWarning (msg : string)
| TagInvoked (params : TagParams.t).

Module TagCmd.
Section TagCmd.
Context `{host : Host} {snapping : SnappingMain} {chalk : Chalk}.

Definition M := Eff.M TagEvent Store.

Definition consoleWarning (msg : string) : M unit :=
  Eff.emit (ConsoleWarning msg).

Definition msg_ignore_unresolved : string :=
  "--ignore-unresolved-dependencies has been removed, please use --ignore-issues instead".

Definition msg_ignore_issues : string :=
  "--ignore-issues expects issues to be ignored, please run " +++ dq +++
  "bit tag -h" +++ dq +++ " for the issues list".

Definition msg_disable_deploy : string :=
  "--disable-deploy-pipeline is deprecated, please use --disable-tag-pipeline instead".

Definition msg_message_mandatory : string :=
  "--message will be mandatory in the next few releases. make sure to add a message with your tag".

Definition msg_all_deprecated : string :=
  "--all is deprecated, please omit it. " +++ dq +++ "bit tag" +++ dq +++
  " by default will tag all new and modified components. to specify a version, use --ver flag".

Definition msg_scope_deprecated : string :=
  "--scope is deprecated, use --unmodified instead".

Definition msg_force_deprecated : string :=
  "--force is deprecated, use either --skip-tests or --unmodified depending on the use case".

Definition msg_prerelease_id : string :=
  "--prerelease-id should be entered along with --increment flag, while --increment must be one of the following: [prepatch, prerelease, preminor, premajor]".

Definition msg_one_release_flag : string :=
  "you can use only one of the following - patch, minor, major, pre-release".

Definition msg_invalid_increment (increment : Js.value) : string :=
  "invalid increment-level " +++ dq +++ Js.to_string increment +++ dq +++ "." +++ nl +++
  "  semver allows the following options only: " +++ Js.join ", " RELEASE_TYPES.

(** The closure [getReleaseType] of [report], with the variables it
    captures as arguments. *)
Definition getReleaseType (increment major minor patch preRelease : Js.value)
  : Res Js.value :=
  if Js.truthy increment then
    if negb (Js.includes RELEASE_TYPES increment)
    then Throw (BitError (msg_invalid_increment increment))
    else Ok increment
  else if Js.truthy major then Ok (Js.Str "major")
  else if Js.truthy minor then Ok (Js.Str "minor")
  else if Js.truthy patch then Ok (Js.Str "patch")
  else if Js.truthy preRelease then Ok (Js.Str "prerelease")
  else Ok (Js.Str DEFAULT_BIT_RELEASE_TYPE).

(** The closure [getPreReleaseId] of [report]. *)
Definition getPreReleaseId (prereleaseId preRelease : Js.value) : Js.value :=
  if Js.truthy prereleaseId then prereleaseId
  else if Js.truthy preRelease && Js.is_string preRelease then preRelease
  else Js.Undefined.

(** The guard of the [--prerelease-id] check. *)
Definition prereleaseIdMisused (prereleaseId increment : Js.value) : bool :=
  Js.truthy prereleaseId &&
  (negb (Js.truthy increment) || Js.is_str increment "major"
   || Js.is_str increment "minor" || Js.is_str increment "patch").

(** [[patch, minor, major, preRelease].filter((x) => x)] *)
Definition releaseFlags (patch minor major preRelease : Js.value) : list Js.value :=
  filter Js.truthy [patch; minor; major; preRelease].

Open Scope eff_scope.

(** [TagCmd.report] up to the construction of [params] (lines 137-229):
    the checks, the deprecation warnings, and the resolution of the flags
    into the object handed to the engine.  [ver] and [unmodified] are the
    two variables the source reassigns. *)
Definition preflight (patterns : option (list string)) (o : TagFlags.t)
  : M TagParams.t :=
  let patterns := match patterns with Some p => p | None => [] end in
  let message := Js.default (Js.Str "") (TagFlags.message o) in
  let ver := TagFlags.ver o in
  let all := Js.default (Js.Boolean false) (TagFlags.all o) in
  let editor := Js.default (Js.Str "") (TagFlags.editor o) in
  let snapped := Js.default (Js.Boolean false) (TagFlags.snapped o) in
  let unmerged := Js.default (Js.Boolean false) (TagFlags.unmerged o) in
  let patch := TagFlags.patch o in
  let minor := TagFlags.minor o in
  let major := TagFlags.major o in
  let preRelease := TagFlags.preRelease o in
  let increment := TagFlags.increment o in
  let prereleaseId := TagFlags.prereleaseId o in
  let force := Js.default (Js.Boolean false) (TagFlags.force o) in
  let ignoreUnresolvedDependencies := TagFlags.ignoreUnresolvedDependencies o in
  let ignoreIssues := TagFlags.ignoreIssues o in
  let ignoreNewestVersion := Js.default (Js.Boolean false) (TagFlags.ignoreNewestVersion o) in
  let skipTests := Js.default (Js.Boolean false) (TagFlags.skipTests o) in
  let skipAutoTag := Js.default (Js.Boolean false) (TagFlags.skipAutoTag o) in
  let scope := TagFlags.scope o in
  let unmodified := Js.default (Js.Boolean false) (TagFlags.unmodified o) in
  let build := TagFlags.build o in
  let soft := Js.default (Js.Boolean false) (TagFlags.soft o) in
  let persist := Js.default (Js.Boolean false) (TagFlags.persist o) in
  let disableDeployPipeline := Js.default (Js.Boolean false) (TagFlags.disableDeployPipeline o) in
  let disableTagPipeline := Js.default (Js.Boolean false) (TagFlags.disableTagPipeline o) in
  let forceDeploy := Js.default (Js.Boolean false) (TagFlags.forceDeploy o) in
  let incrementBy := Js.default (Js.Num 1) (TagFlags.incrementBy o) in
  if Js.is_boolean ignoreUnresolvedDependencies
  then Eff.throw (BitError msg_ignore_unresolved)
  else if Js.truthy ignoreIssues && Js.is_boolean ignoreIssues
  then Eff.throw (BitError msg_ignore_issues)
  else
    (Eff.when (Js.truthy disableDeployPipeline) (consoleWarning msg_disable_deploy) ;;
     Eff.when (negb (Js.truthy message) && negb (Js.truthy persist))
       (consoleWarning msg_message_mandatory) ;;
     Eff.when (Js.truthy all) (consoleWarning msg_all_deprecated) ;;
     let ver := if Js.truthy all && Js.is_string all then all else ver in
     Eff.when (Js.truthy scope) (consoleWarning msg_scope_deprecated) ;;
     let unmodified := if Js.truthy scope then Js.Boolean true else unmodified in
     let ver := if Js.truthy scope && Js.is_string scope then scope else ver in
     Eff.when (Js.truthy force) (consoleWarning msg_force_deprecated) ;;
     let unmodified :=
       if Js.truthy force && negb (Nat.eqb (length patterns) 0)
       then Js.Boolean true else unmodified in
     if prereleaseIdMisused prereleaseId increment
     then Eff.throw (BitError msg_prerelease_id)
     else if Nat.ltb 1 (length (releaseFlags patch minor major preRelease))
     then Eff.throw (BitError msg_one_release_flag)
     else
       (let disableTagAndSnapPipelines := Js.or disableTagPipeline disableDeployPipeline in
        releaseType <- Eff.lift (getReleaseType increment major minor patch preRelease) ;;
        Eff.ret
          {| TagParams.ids := patterns;
             TagParams.snapped := snapped;
             TagParams.unmerged := unmerged;
             TagParams.editor := editor;
             TagParams.message := message;
             TagParams.releaseType := releaseType;
             TagParams.preReleaseId := getPreReleaseId prereleaseId preRelease;
             TagParams.ignoreIssues := ignoreIssues;
             TagParams.ignoreNewestVersion := ignoreNewestVersion;
             TagParams.skipTests := skipTests;
             TagParams.skipAutoTag := skipAutoTag;
             TagParams.build := build;
             TagParams.soft := soft;
             TagParams.persist := persist;
             TagParams.unmodified := unmodified;
             TagParams.disableTagAndSnapPipelines := disableTagAndSnapPipelines;
             TagParams.forceDeploy := forceDeploy;
             TagParams.incrementBy := incrementBy;
             TagParams.version := ver |})).

Definition tagExplanationPersist : string :=
  nl +++ "(use " +++ dq +++ "bit export [collection]" +++ dq +++
  " to push these components to a remote" +++ dq +++ ")" +++ nl +++
  "(use " +++ dq +++ "bit reset" +++ dq +++ " to unstage versions)" +++ nl.

Definition tagExplanationSoft : string :=
  nl +++ "(use " +++ dq +++ "bit tag --persist" +++ dq +++
  " to persist the changes" +++ dq +++ ")" +++ nl +++
  "(use " +++ dq +++ "bit reset --soft" +++ dq +++ " to remove the soft-tags)" +++ nl.

(** The body of the callback of [outputComponents], for an
    [autoTaggedResults] that is an array. *)
Definition componentOutput (autoTagged : list AutoTagResult) (c : Component) : string :=
  let line := "     > " +++ idToString (component_id c) in
  let autoTag :=
    filter (fun result => searchWithoutScopeAndVersion (triggeredBy result) (component_id c))
           autoTagged in
  match autoTag with
  | [] => line
  | _ :: _ =>
      let autoTagComp := map (fun a => idToString (component_id (component a))) autoTag in
      line +++ nl +++ "       " +++ AUTO_TAGGED_MSG +++ ":" +++ nl +++
      "            " +++ Js.join (nl +++ "            ") autoTagComp
  end.

(** [outputComponents]: the callback reads [autoTaggedResults.filter], a
    [TypeError] when [autoTaggedResults] is missing and there is a
    component to print. *)
Definition outputComponents (results : TagResults) (comps : list Component) : Res string :=
  match comps, autoTaggedResults results with
  | [], _ => Ok ""
  | _ :: _, None => Throw (TypeError "Cannot read properties of undefined (reading 'filter')")
  | _ :: _, Some autoTagged => Ok (Js.join nl (map (componentOutput autoTagged) comps))
  end.

Definition publishOutput (results : TagResults) : string :=
  match publishedPackages results with
  | None | Some [] => ""
  | Some published =>
      let successTitle :=
        nl +++ nl +++
        chalk_green ("published the following " +++ Js.nat_to_string (length published) +++
                     " component(s) successfully" +++ nl) in
      let successCompsStr := Js.join nl published in
      if successCompsStr =? "" then "" else successTitle +++ successCompsStr
  end.

Definition outputIfExists (results : TagResults) (label explanation : string)
  (components : list Component) : Res string :=
  match components with
  | [] => Ok ""
  | _ :: _ =>
      let softTagPrefix := if isSoftTag results then "soft-tagged " else "" in
      res_bind (outputComponents results components) (fun out =>
      Ok (nl +++ chalk_underline (softTagPrefix +++ label) +++ nl +++
          "(" +++ explanation +++ ")" +++ nl +++ out +++ nl))
  end.

(** [TagCmd.report] from line 233 on: the text printed for a result of
    the engine. *)
Definition renderResults (results : TagResults) : Res string :=
  let tagged := taggedComponents results in
  let changedComponents :=
    filter (fun c => negb (searchWithoutVersion (newComponents results) (component_id c))) tagged in
  let addedComponents :=
    filter (fun c => searchWithoutVersion (newComponents results) (component_id c)) tagged in
  let autoTaggedCount :=
    match autoTaggedResults results with Some l => length l | None => 0 end in
  let warningsOutput :=
    match warnings results with
    | Some (w :: ws) => chalk_yellow (Js.join nl (w :: ws)) +++ nl +++ nl
    | _ => ""
    end in
  let tagExplanation :=
    if isSoftTag results then tagExplanationSoft else tagExplanationPersist in
  let newDesc :=
    if isSoftTag results then "set to be tagged first version for components"
    else "first version for components" in
  let changedDesc :=
    if isSoftTag results then "components that set to get a version bump"
    else "components that got a version bump" in
  let softTagClarification :=
    if isSoftTag results
    then chalk_bold "keep in mind that this is a soft-tag (changes recorded to be tagged), to persist the changes use --persist flag"
    else "" in
  res_bind (outputIfExists results "new components" newDesc addedComponents) (fun added =>
  res_bind (outputIfExists results "changed components" changedDesc changedComponents) (fun changed =>
  Ok (warningsOutput +++
      chalk_green (Js.nat_to_string (length tagged + autoTaggedCount) +++ " component(s) " +++
                   (if isSoftTag results then "soft-" else "") +++ "tagged") +++
      tagExplanation +++ added +++ changed +++ publishOutput results +++
      softTagClarification))).

(** [TagCmd.report]. *)
Definition report (patterns : option (list string)) (o : TagFlags.t) : M string :=
  params <- preflight patterns o ;;
  results <- Eff.call (TagInvoked params) (tag params) ;;
  match results with
  | None => Eff.ret (chalk_yellow NOTHING_TO_TAG_MSG)
  | Some results => Eff.lift (renderResults results)
  end.

Close Scope eff_scope.

(** The world [w] after the console warnings [msgs]: the store is the
    same and no call of the engine has been recorded. *)
Definition warned (w : Eff.World TagEvent Store) (msgs : list string)
  : Eff.World TagEvent Store :=
  {| Eff.trace := Eff.trace w ++ map ConsoleWarning msgs; Eff.store := Eff.store w |}.

End TagCmd.
End TagCmd.

(** ** The merge command *)

(** The second argument of [MergeCmd.report]. *)
Module MergeFlags.
Record t := mk {
  ours : Js.value;
  theirs : Js.value;
  manual : Js.value;
  abort : Js.value;
  resolve : Js.value;
  build : Js.value;
  noSnap : Js.value;
  verbose : Js.value;
  message : Js.value;
  skipDependencyInstallation : Js.value
}.

Definition of_object (obj : list (string * Js.value)) : t :=
  let p := Js.prop obj in
  mk (p "ours") (p "theirs") (p "manual") (p "abort") (p "resolve") (p "build")
     (p "noSnap") (p "verbose") (p "message") (p "skipDependencyInstallation").
End MergeFlags.

(** [getMergeStrategy] of the legacy [merge-version] module, which the
    command calls and does not define. *)
Class MergeVersion := {
  MergeStrategy : Type;
  getMergeStrategy : Js.value -> Js.value -> Js.value -> Res MergeStrategy
}.

(** The arguments of [merging.merge], in the order of the call. *)
Module MergeArgs.
Record t `{MergeVersion} := mk {
  ids : list string;
  mergeStrategy : MergeStrategy;
  abort : Js.value;
  resolve : Js.value;
  noSnap : Js.value;
  message : Js.value;
  build : Js.value;
  skipDependencyInstallation : Js.value
}.
End MergeArgs.

(** One merged component: its identity and the status of each file, in
    the order of [Object.keys(filesStatus)]. *)
Module ApplyVersionResult.
Record t `{Host} := mk {
  id : BitId;
  filesStatus : list (string * string)
}.
End ApplyVersionResult.

Module FailedComponent.
Record t `{Host} := mk {
  id : BitId;
  failureMessage : string;
  unchangedLegitimately : bool
}.
End FailedComponent.

Module ConfigMergeResult.
Record t := mk {
  compIdStr : string;
  hasConflicts : bool
}.
End ConfigMergeResult.

Record MergeSnapResults `{Host} := {
  snappedComponents : list Component;
  autoSnappedResults : list AutoTagResult
}.

(** [ApplyVersionResults], with the optional [configMergeResults] that
    [mergeReport] accepts next to it. *)
Module ApplyVersionResults.
Record t `{Host} := mk {
  components : option (list ApplyVersionResult.t);
  version : option string;
  failedComponents : option (list FailedComponent.t);
  removedComponents : option (list BitId);
  resolvedComponents : option (list Component);
  abortedComponents : option (list ApplyVersionResult.t);
  mergeSnapResults : option MergeSnapResults;
  mergeSnapError : option string;
  leftUnresolvedConflicts : bool;
  verbose : bool;
  configMergeResults : option (list ConfigMergeResult.t);
  workspaceDepsUpdates : option (list (string * (string * string)))
}.
End ApplyVersionResults.

(** [MergingMain], of which the command uses the method [merge]. *)
Class MergingMain `{Host} `{MergeVersion} := {
  merge : MergeArgs.t -> Store -> Res ApplyVersionResults.t * Store
}.

Inductive MergeEvent `{MergeVersion} :=
| MergeInvoked (args : MergeArgs.t).

(** lodash's [compact] on an array of strings and [null]s: the falsy
    entries, [null] and the empty string, are dropped. *)
Fixpoint compact (l : list (option string)) : list string :=
  match l with
  | [] => []
  | None :: rest => compact rest
  | Some s :: rest => if s =? "" then compact rest else s :: compact rest
  end.

Module MergeReport.
Section MergeReport.
Context `{host : Host} {chalk : Chalk}.

Definition tab : string := String (ascii_of_nat 9) EmptyString.

Definition file_line (addName : bool) (entry : string * string) : string :=
  let (file, status) := entry in
  let note :=
    if status =? FileStatus_manual
    then chalk_white ("automatic merge failed. please fix conflicts manually and then run " +++
                      dq +++ "bit install" +++ dq +++ " and " +++ dq +++ "bit compile" +++ dq)
    else "" in
  (if addName then tab else "") +++ status +++ " " +++ chalk_bold file +++ " " +++ note.

(** [applyVersionReport(components, addName = true, showVersion = false)] *)
Definition applyVersionReport (components : list ApplyVersionResult.t)
  (addName showVersion : bool) : string :=
  Js.join (nl +++ nl)
    (map (fun component =>
            let name :=
              if showVersion then idToString (ApplyVersionResult.id component)
              else idToStringWithoutVersion (ApplyVersionResult.id component) in
            let files :=
              Js.join nl (map (file_line addName) (ApplyVersionResult.filesStatus component)) in
            (if addName then name else "") +++ nl +++ chalk_cyan files)
         components).

Definition conflict_line (entry : string * string) : option string :=
  let (file, status) := entry in
  if status =? FileStatus_manual
  then Some (tab +++ status +++ " " +++ chalk_bold file)
  else None.

Definition conflictSummaryReport (components : list ApplyVersionResult.t) : string :=
  Js.join nl
    (compact
       (map (fun component =>
               let name := idToStringWithoutVersion (ApplyVersionResult.id component) in
               let files := compact (map conflict_line (ApplyVersionResult.filesStatus component)) in
               match files with
               | [] => None
               | _ :: _ => Some (name +++ nl +++ chalk_cyan (Js.join nl files))
               end)
            components)).

Definition getRemovedOutput (removedComponents : option (list BitId)) : string :=
  match removedComponents with
  | None | Some [] => ""
  | Some removed =>
      let title :=
        "the following " +++ Js.nat_to_string (length removed) +++
        " component(s) have been removed" in
      let body := Js.join nl (map idToString removed) in
      nl +++ nl +++ chalk_underline title +++ nl +++ body +++ nl +++ nl
  end.

Section mergeReport.
Variable r : ApplyVersionResults.t.

Let components := ApplyVersionResults.components r.
Let failedComponents := ApplyVersionResults.failedComponents r.
Let removedComponents := ApplyVersionResults.removedComponents r.
Let version := ApplyVersionResults.version r.
Let mergeSnapResults := ApplyVersionResults.mergeSnapResults r.
Let mergeSnapError := ApplyVersionResults.mergeSnapError r.
Let leftUnresolvedConflicts := ApplyVersionResults.leftUnresolvedConflicts r.
Let verbose := ApplyVersionResults.verbose r.
Let configMergeResults := ApplyVersionResults.configMergeResults r.
Let workspaceDepsUpdates := ApplyVersionResults.workspaceDepsUpdates r.

Definition getSuccessOutput : string :=
  match components with
  | None | Some [] => ""
  | Some comps =>
      let from :=
        match version with
        | Some v => if v =? "" then "" else "from version " +++ chalk_bold v
        | None => ""
        end in
      let title := "successfully merged components" +++ from +++ nl in
      chalk_underline title +++ chalk_green (applyVersionReport comps true false)
  end.

Definition getConflictSummary : string :=
  match components with
  | None | Some [] => ""
  | Some comps =>
      if negb leftUnresolvedConflicts then "" else
      let title := nl +++ nl +++ "files with conflicts summary" +++ nl in
      let suggestion :=
        nl +++ nl +++
        "the merge process wasn't completed due to the conflicts above. fix them manually and then run " +++
        dq +++ "bit install" +++ dq +++ "." +++ nl +++
        "once ready, snap/tag the components to complete the merge." in
      chalk_underline title +++ conflictSummaryReport comps +++ chalk_yellow suggestion
  end.

Definition configMergeWithConflicts : list ConfigMergeResult.t :=
  match configMergeResults with
  | Some results => filter ConfigMergeResult.hasConflicts results
  | None => []
  end.

Definition getConfigMergeConflictSummary : string :=
  match configMergeWithConflicts with
  | [] => ""
  | _ :: _ =>
      let comps := Js.join nl (map ConfigMergeResult.compIdStr configMergeWithConflicts) in
      let title := nl +++ nl +++ "components with config-merge conflicts" +++ nl in
      let suggestion :=
        nl +++ "conflicts were found while trying to merge the config. fix them manually by editing the " +++
        MergeConfigFilename +++ " file in the workspace root." +++ nl +++
        "once ready, snap/tag the components to complete the merge." in
      chalk_underline title +++ comps +++ chalk_yellow suggestion
  end.

Definition snapComponentOutput (autoSnapped : list AutoTagResult) (c : Component) : string :=
  let line := "     > " +++ idToString (component_id c) in
  let autoTag :=
    filter (fun result => searchWithoutScopeAndVersion (triggeredBy result) (component_id c))
           autoSnapped in
  match autoTag with
  | [] => line
  | _ :: _ =>
      let autoTagComp := map (fun a => idToString (component_id (component a))) autoTag in
      line +++ nl +++ "       " +++ AUTO_SNAPPED_MSG +++ ": " +++ Js.join ", " autoTagComp
  end.

Definition getSnapsOutput : string :=
  match mergeSnapError with
  | Some message =>
      nl +++
      chalk_bold "snapping the merged components had failed with the following error, please fix the issues and snap manually" +++
      nl +++ message +++ nl
  | None =>
      match mergeSnapResults with
      | None => ""
      | Some results =>
          nl +++ chalk_underline "merge-snapped components" +++ nl +++
          "(components that snapped as a result of the merge)" +++ nl +++
          Js.join nl (map (snapComponentOutput (autoSnappedResults results))
                          (snappedComponents results)) +++ nl
      end
  end.

Definition getWorkspaceDepsOutput : string :=
  match workspaceDepsUpdates with
  | None => ""
  | Some updates =>
      let title := nl +++ "workspace.jsonc has been updated with the following dependencies" in
      let body :=
        Js.join nl
          (map (fun entry : string * (string * string) =>
                  let '(pkgName, (from, to)) := entry in
                  "  " +++ pkgName +++ ": " +++ from +++ " => " +++ to)
               updates) in
      nl +++ chalk_underline title +++ nl +++ body +++ nl +++ nl
  end.

(** The callback of [failedComponents.map] in [getFailureOutput]. *)
Definition failure_line (failedComponent : FailedComponent.t) : option string :=
  if negb verbose && FailedComponent.unchangedLegitimately failedComponent then None
  else
    let color :=
      if FailedComponent.unchangedLegitimately failedComponent
      then chalk_white else chalk_red in
    Some (chalk_bold (idToString (FailedComponent.id failedComponent)) +++ " - " +++
          color (FailedComponent.failureMessage failedComponent)).

(** The entries of the failure listing, before they are joined. *)
Definition failure_listing (failed : list FailedComponent.t) : list string :=
  compact (map failure_line failed).

Definition legitimately_skipped_line (n : nat) : string :=
  chalk_bold (nl +++ "the merge has been skipped on " +++ Js.nat_to_string n +++
              " component(s) legitimately") +++ nl +++
  "(use --verbose to list them next time)".

Definition getFailureOutput : string :=
  match failedComponents with
  | None | Some [] => ""
  | Some failed =>
      let title := nl +++ "the merge has been skipped on the following component(s)" in
      let body := Js.join nl (failure_listing failed) in
      if body =? "" then legitimately_skipped_line (length failed)
      else nl +++ chalk_underline title +++ nl +++ body +++ nl +++ nl
  end.

(** The five counts of [getSummary]. *)
Definition merged : nat :=
  match components with Some comps => length comps | None => 0 end.

Definition unchangedLegitimately : nat :=
  match failedComponents with
  | Some failed => length (filter FailedComponent.unchangedLegitimately failed)
  | None => 0
  end.

Definition failedToMerge : nat :=
  match failedComponents with
  | Some failed =>
      length (filter (fun f => negb (FailedComponent.unchangedLegitimately f)) failed)
  | None => 0
  end.

Definition autoSnapped : nat :=
  match mergeSnapResults with
  | Some results => length (snappedComponents results) + length (autoSnappedResults results)
  | None => 0 + 0
  end.

Definition removedCount : string :=
  match removedComponents with
  | Some removed => Js.nat_to_string (length removed)
  | None => "0"
  end.

Definition getSummary : string :=
  let newLines := nl +++ nl in
  let title := chalk_bold_underline "Merge Summary" in
  let mergedStr := nl +++ "Total Merged: " +++ chalk_bold (Js.nat_to_string merged) in
  let unchangedLegitimatelyStr :=
    nl +++ "Total Unchanged: " +++ chalk_bold (Js.nat_to_string unchangedLegitimately) in
  let failedToMergeStr :=
    nl +++ "Total Failed: " +++ chalk_bold (Js.nat_to_string failedToMerge) in
  let autoSnappedStr := nl +++ "Total Snapped: " +++ chalk_bold (Js.nat_to_string autoSnapped) in
  let removedStr := nl +++ "Total Removed: " +++ chalk_bold removedCount in
  newLines +++ title +++ mergedStr +++ unchangedLegitimatelyStr +++ failedToMergeStr +++
  autoSnappedStr +++ removedStr.

Definition mergeReport : string :=
  getSuccessOutput +++
  getFailureOutput +++
  getRemovedOutput removedComponents +++
  getSnapsOutput +++
  getWorkspaceDepsOutput +++
  getConfigMergeConflictSummary +++
  getConflictSummary +++
  getSummary.

End mergeReport.

(** The same result, reported with the verbose flag [v]. *)
Definition withVerbose (v : bool) (r : ApplyVersionResults.t) : ApplyVersionResults.t :=
  {| ApplyVersionResults.components := ApplyVersionResults.components r;
     ApplyVersionResults.version := ApplyVersionResults.version r;
     ApplyVersionResults.failedComponents := ApplyVersionResults.failedComponents r;
     ApplyVersionResults.removedComponents := ApplyVersionResults.removedComponents r;
     ApplyVersionResults.resolvedComponents := ApplyVersionResults.resolvedComponents r;
     ApplyVersionResults.abortedComponents := ApplyVersionResults.abortedComponents r;
     ApplyVersionResults.mergeSnapResults := ApplyVersionResults.mergeSnapResults r;
     ApplyVersionResults.mergeSnapError := ApplyVersionResults.mergeSnapError r;
     ApplyVersionResults.leftUnresolvedConflicts := ApplyVersionResults.leftUnresolvedConflicts r;
     ApplyVersionResults.verbose := v;
     ApplyVersionResults.configMergeResults := ApplyVersionResults.configMergeResults r;
     ApplyVersionResults.workspaceDepsUpdates := ApplyVersionResults.workspaceDepsUpdates r |}.

(** The entry of a failed component in the listing. *)
Definition failure_entry (color : string -> string) (f : FailedComponent.t) : string :=
  chalk_bold (idToString (FailedComponent.id f)) +++ " - " +++
  color (FailedComponent.failureMessage f).

End MergeReport.
End MergeReport.

Module MergeCmd.
Section MergeCmd.
Context `{host : Host} `{mv : MergeVersion} {merging : MergingMain} {chalk : Chalk}.

Definition M := Eff.M MergeEvent Store.

Definition msg_abort_resolve : string :=
  "unable to use " +++ dq +++ "abort" +++ dq +++ " and " +++ dq +++ "resolve" +++ dq +++
  " flags together".

Definition msg_nosnap_message : string :=
  "unable to use " +++ dq +++ "noSnap" +++ dq +++ " and " +++ dq +++ "message" +++ dq +++
  " flags together".

(** The object that [MergeCmd.report] passes to [mergeReport]: the six
    properties it names, the others left out. *)
Definition reported (result : ApplyVersionResults.t) (verbose : Js.value)
  : ApplyVersionResults.t :=
  {| ApplyVersionResults.components := ApplyVersionResults.components result;
     ApplyVersionResults.version := ApplyVersionResults.version result;
     ApplyVersionResults.failedComponents := ApplyVersionResults.failedComponents result;
     ApplyVersionResults.removedComponents := None;
     ApplyVersionResults.resolvedComponents := None;
     ApplyVersionResults.abortedComponents := None;
     ApplyVersionResults.mergeSnapResults := ApplyVersionResults.mergeSnapResults result;
     ApplyVersionResults.mergeSnapError := ApplyVersionResults.mergeSnapError result;
     ApplyVersionResults.leftUnresolvedConflicts := false;
     ApplyVersionResults.verbose := Js.truthy verbose;
     ApplyVersionResults.configMergeResults := None;
     ApplyVersionResults.workspaceDepsUpdates := None |}.

Open Scope eff_scope.

(** [MergeCmd.report]. *)
Definition report (ids : option (list string)) (o : MergeFlags.t) : M string :=
  let ids := match ids with Some l => l | None => [] end in
  let ours := Js.default (Js.Boolean false) (MergeFlags.ours o) in
  let theirs := Js.default (Js.Boolean false) (MergeFlags.theirs o) in
  let manual := Js.default (Js.Boolean false) (MergeFlags.manual o) in
  let abort := Js.default (Js.Boolean false) (MergeFlags.abort o) in
  let resolve := Js.default (Js.Boolean false) (MergeFlags.resolve o) in
  let build := Js.default (Js.Boolean false) (MergeFlags.build o) in
  let noSnap := Js.default (Js.Boolean false) (MergeFlags.noSnap o) in
  let verbose := Js.default (Js.Boolean false) (MergeFlags.verbose o) in
  let message := MergeFlags.message o in
  let skipDependencyInstallation :=
    Js.default (Js.Boolean false) (MergeFlags.skipDependencyInstallation o) in
  let build :=
    if isFeatureEnabled BUILD_ON_CI then Js.Boolean (Js.truthy build) else Js.Boolean true in
  mergeStrategy <- Eff.lift (getMergeStrategy ours theirs manual) ;;
  if Js.truthy abort && Js.truthy resolve
  then Eff.throw (BitError msg_abort_resolve)
  else if Js.truthy noSnap && Js.truthy message
  then Eff.throw (BitError msg_nosnap_message)
  else
    (let args :=
       {| MergeArgs.ids := ids;
          MergeArgs.mergeStrategy := mergeStrategy;
          MergeArgs.abort := abort;
          MergeArgs.resolve := resolve;
          MergeArgs.noSnap := noSnap;
          MergeArgs.message := message;
          MergeArgs.build := build;
          MergeArgs.skipDependencyInstallation := skipDependencyInstallation |} in
     result <- Eff.call (MergeInvoked args) (merge args) ;;
     match ApplyVersionResults.resolvedComponents result with
     | Some resolvedComponents =>
         let title := "successfully resolved component(s)" +++ nl in
         let componentsStr :=
           Js.join nl (map (fun c => idToStringWithoutVersion (component_id c))
                           resolvedComponents) in
         Eff.ret (chalk_underline title +++ chalk_green componentsStr)
     | None =>
         match ApplyVersionResults.abortedComponents result with
         | Some abortedComponents =>
             let title := "successfully aborted the merge of the following component(s)" +++ nl in
             let componentsStr :=
               Js.join nl (map (fun c => idToStringWithoutVersion (ApplyVersionResult.id c))
                               abortedComponents) in
             Eff.ret (chalk_underline title +++ chalk_green componentsStr)
         | None => Eff.ret (MergeReport.mergeReport (reported result verbose))
         end
     end).

Close Scope eff_scope.

End MergeCmd.
End MergeCmd.

(** ** Parts of the repository that are not among the sources *)

Inductive Strategy := strategy_ours | strategy_theirs | strategy_manual.

(** Modelled from the spec: [getMergeStrategy] of the legacy
    [merge-version] module, which is imported by the merge command and is
    not under src/.  The spec gives the three strategies [ours], [theirs]
    and [manual] as mutually exclusive, with [manual] the default when no
    side is specified. *)
Definition specGetMergeStrategy (ours theirs manual : Js.value) : Res Strategy :=
  let chosen :=
    (if Js.truthy ours then [strategy_ours] else []) ++
    (if Js.truthy theirs then [strategy_theirs] else []) ++
    (if Js.truthy manual then [strategy_manual] else []) in
  match chosen with
  | [] => Ok strategy_manual
  | [s] => Ok s
  | _ :: _ :: _ => Throw (BitError "the strategies ours, theirs and manual are mutually exclusive")
  end.

#[local] Instance specMergeVersion : MergeVersion := {|
  MergeStrategy := Strategy;
  getMergeStrategy := specGetMergeStrategy
|}.

(** What the merge of one component gives when it does not fail: the
    merged files, or nothing, the component having nothing to merge. *)
Inductive MergeStep `{Host} :=
| Applied (result : ApplyVersionResult.t)
| NothingToMerge (reason : string).

(** The work on one component (the three-way merge of its files), which
    can throw (target version not found, component not under pending
    merge), and the choice of the batch. *)
Class ComponentMerger `{Host} `{MergeVersion} := {
  batchOf : MergeArgs.t -> Store -> list BitId;
  mergeComponent : MergeArgs.t -> BitId -> Store -> Res MergeStep * Store
}.

(** [e.message] *)
Definition exn_message (e : Exn) : string :=
  match e with
  | BitError msg => msg
  | TypeError msg => msg
  | OtherError msg => msg
  end.

Module MergeEngine.
Section MergeEngine.
Context `{host : Host} `{mv : MergeVersion} {merger : ComponentMerger}.

(** Modelled from the spec: the loop of the merge engine
    ([MergingMain.merge], whose module is not under src/) over the
    components of a batch, the store threaded from one component to the
    next.  A component whose merge throws is collected into
    [failedComponents] with the message of the error as its
    [failureMessage]; so is a component that had nothing to merge, with
    the [unchangedLegitimately] flag; a merged component goes to
    [components] of the same result; no failure aborts the batch. *)
Fixpoint mergeBatch (args : MergeArgs.t) (batch : list BitId) (s : Store)
  : list ApplyVersionResult.t * list FailedComponent.t * Store :=
  match batch with
  | [] => ([], [], s)
  | id :: rest =>
      let (step, s1) := mergeComponent args id s in
      let '(components, failed, s2) := mergeBatch args rest s1 in
      match step with
      | Ok (Applied result) => (result :: components, failed, s2)
      | Ok (NothingToMerge reason) =>
          (components,
           {| FailedComponent.id := id;
              FailedComponent.failureMessage := reason;
              FailedComponent.unchangedLegitimately := true |} :: failed,
           s2)
      | Throw e =>
          (components,
           {| FailedComponent.id := id;
              FailedComponent.failureMessage := exn_message e;
              FailedComponent.unchangedLegitimately := false |} :: failed,
           s2)
      end
  end.

(** Modelled from the spec: [MergingMain.merge] on a batch. *)
Definition specMerge (args : MergeArgs.t) (s : Store)
  : Res ApplyVersionResults.t * Store :=
  let '(components, failed, s') := mergeBatch args (batchOf args s) s in
  (Ok {| ApplyVersionResults.components := Some components;
         ApplyVersionResults.version := None;
         ApplyVersionResults.failedComponents := Some failed;
         ApplyVersionResults.removedComponents := None;
         ApplyVersionResults.resolvedComponents := None;
         ApplyVersionResults.abortedComponents := None;
         ApplyVersionResults.mergeSnapResults := None;
         ApplyVersionResults.mergeSnapError := None;
         ApplyVersionResults.leftUnresolvedConflicts := false;
         ApplyVersionResults.verbose := false;
         ApplyVersionResults.configMergeResults := None;
         ApplyVersionResults.workspaceDepsUpdates := None |}, s').

#[local] Instance specMerging : MergingMain := {| merge := specMerge |}.

End MergeEngine.
End MergeEngine.

(** The workspace as the tag engine sees it: which components a list of
    patterns denotes, which of them have pending changes, and the rest
    of the engine (auto-tag expansion, versions, build, persistence) on
    the components it has selected. *)
Class TagWorkspace `{Host} := {
  resolveComponents : list string -> Store -> list Component;
  hasPendingChanges : Component -> Store -> bool;
  tagSelected : TagParams.t -> list Component -> Store -> Res TagResults * Store
}.

Module TagEngine.
Section TagEngine.
Context `{host : Host} {workspace : TagWorkspace}.

(** Modelled from the spec: step 1 of the tag engine ([SnappingMain.tag],
    whose module is not under src/): the requested components with
    pending changes, or all of them if [unmodified]. *)
Definition candidates (params : TagParams.t) (s : Store) : list Component :=
  filter (fun c => Js.truthy (TagParams.unmodified params) || hasPendingChanges c s)
         (resolveComponents (TagParams.ids params) s).

(** Modelled from the spec: [SnappingMain.tag].  Components without an
    actual change are excluded with no error when [unmodified] is not
    set; when none is left the engine gives the absent result, the
    nothing-to-tag outcome. *)
Definition specTag (params : TagParams.t) (s : Store)
  : Res (option TagResults) * Store :=
  match candidates params s with
  | [] => (Ok None, s)
  | c :: cs =>
      let (r, s') := tagSelected params (c :: cs) s in
      (res_bind r (fun results => Ok (Some results)), s')
  end.

#[local] Instance specSnapping : SnappingMain := {| tag := specTag |}.

End TagEngine.
End TagEngine.

(** ** Further views of the two commands *)

(** A flags object with its six release flags replaced, the other
    properties kept: the objects that two command lines differing in
    their release flags give. *)
Module TagSugar.
Definition with_bump (patch minor major preRelease increment prereleaseId : Js.value)
  (o : TagFlags.t) : TagFlags.t :=
  {| TagFlags.message := TagFlags.message o;
     TagFlags.ver := TagFlags.ver o;
     TagFlags.all := TagFlags.all o;
     TagFlags.editor := TagFlags.editor o;
     TagFlags.snapped := TagFlags.snapped o;
     TagFlags.unmerged := TagFlags.unmerged o;
     TagFlags.patch := patch;
     TagFlags.minor := minor;
     TagFlags.major := major;
     TagFlags.preRelease := preRelease;
     TagFlags.increment := increment;
     TagFlags.prereleaseId := prereleaseId;
     TagFlags.force := TagFlags.force o;
     TagFlags.ignoreUnresolvedDependencies := TagFlags.ignoreUnresolvedDependencies o;
     TagFlags.ignoreIssues := TagFlags.ignoreIssues o;
     TagFlags.ignoreNewestVersion := TagFlags.ignoreNewestVersion o;
     TagFlags.skipTests := TagFlags.skipTests o;
     TagFlags.skipAutoTag := TagFlags.skipAutoTag o;
     TagFlags.scope := TagFlags.scope o;
     TagFlags.unmodified := TagFlags.unmodified o;
     TagFlags.build := TagFlags.build o;
     TagFlags.soft := TagFlags.soft o;
     TagFlags.persist := TagFlags.persist o;
     TagFlags.disableDeployPipeline := TagFlags.disableDeployPipeline o;
     TagFlags.disableTagPipeline := TagFlags.disableTagPipeline o;
     TagFlags.forceDeploy := TagFlags.forceDeploy o;
     TagFlags.incrementBy := TagFlags.incrementBy o |}.
End TagSugar.

Module TagOutput.
Section TagOutput.
Context `{host : Host}.

(** [changedComponents] and [addedComponents] of [TagCmd.report] (lines
    234-235): the tagged components that are not, and that are, among
    the new components. *)
Definition changedComponents (results : TagResults) : list Component :=
  filter (fun c => negb (searchWithoutVersion (newComponents results) (component_id c)))
         (taggedComponents results).

Definition addedComponents (results : TagResults) : list Component :=
  filter (fun c => searchWithoutVersion (newComponents results) (component_id c))
         (taggedComponents results).

(** The warnings that [TagCmd.report] prints (lines 143-171), in the
    order of the source. *)
Definition deprecations (o : TagFlags.t) : list string :=
  (if Js.truthy (TagFlags.disableDeployPipeline o) then [TagCmd.msg_disable_deploy] else []) ++
  (if negb (Js.truthy (Js.default (Js.Str "") (TagFlags.message o)))
      && negb (Js.truthy (TagFlags.persist o))
   then [TagCmd.msg_message_mandatory] else []) ++
  (if Js.truthy (TagFlags.all o) then [TagCmd.msg_all_deprecated] else []) ++
  (if Js.truthy (TagFlags.scope o) then [TagCmd.msg_scope_deprecated] else []) ++
  (if Js.truthy (TagFlags.force o) then [TagCmd.msg_force_deprecated] else []).

End TagOutput.
End TagOutput.

Module MergeErrors.
Section MergeErrors.
Context {chalk : Chalk}.

(** [installationErrorOutput]; the argument is the message of the error,
    if there is an error. *)
Definition installationErrorOutput (installationError : option string) : string :=
  match installationError with
  | None => ""
  | Some message =>
      let title := chalk_underline "Installation Error" in
      let subTitle :=
        "The following error had been caught from the package manager, please fix the issue and run " +++
        dq +++ "bit install" +++ dq in
      let body := chalk_red message in
      nl +++ nl +++ title +++ nl +++ subTitle +++ nl +++ body
  end.

(** [compilationErrorOutput] *)
Definition compilationErrorOutput (compilationError : option string) : string :=
  match compilationError with
  | None => ""
  | Some message =>
      let title := chalk_underline "Compilation Error" in
      let subTitle :=
        "The following error had been caught from the compiler, please fix the issue and run " +++
        dq +++ "bit compile" +++ dq in
      let body := chalk_red message in
      nl +++ nl +++ title +++ nl +++ subTitle +++ nl +++ body
  end.

End MergeErrors.
End MergeErrors.

(** ** A small workspace to run the commands on *)

Module Demo.

(** Components are named by strings; the store lists the components of
    the workspace, each with whether it has pending changes. *)
Definition host : Host := {|
  Store := list (string * bool);
  Component := string;
  BitId := string;
  BitIds := list string;
  component_id := fun c => c;
  idToString := fun i => i;
  idToStringWithoutVersion := fun i => i;
  searchWithoutVersion := fun ids i => existsb (String.eqb i) ids;
  searchWithoutScopeAndVersion := fun ids i => existsb (String.eqb i) ids;
  NOTHING_TO_TAG_MSG := "nothing to tag";
  AUTO_TAGGED_MSG := "auto-tagged dependents";
  AUTO_SNAPPED_MSG := "auto-snapped dependents";
  MergeConfigFilename := "merge-conflict";
  FileStatus_manual := "CONFLICT";
  BUILD_ON_CI := "build-on-ci";
  isFeatureEnabled := fun _ => false
|}.

(** [chalk] with the colours off. *)
Definition chalk : Chalk := {|
  chalk_bold := fun s => s;
  chalk_underline := fun s => s;
  chalk_bold_underline := fun s => s;
  chalk_yellow := fun s => s;
  chalk_green := fun s => s;
  chalk_red := fun s => s;
  chalk_white := fun s => s;
  chalk_cyan := fun s => s
|}.

Definition named (names : list string) (c : string) : bool :=
  existsb (String.eqb c) names.

Definition workspace : @TagWorkspace host := {|
  resolveComponents := fun ids (s : @Store host) =>
    match ids with
    | [] => map fst s
    | _ :: _ => filter (named ids) (map fst s)
    end;
  hasPendingChanges := fun c (s : @Store host) =>
    existsb (fun entry : string * bool => (fst entry =? c) && snd entry) s;
  tagSelected := fun params selected (s : @Store host) =>
    (Ok {| taggedComponents := selected;
           autoTaggedResults := Some [];
           warnings := None;
           newComponents := [];
           publishedPackages := None;
           isSoftTag := Js.truthy (TagParams.soft params) |},
     map (fun entry : string * bool =>
            (fst entry, snd entry && negb (named selected (fst entry)))) s)
|}.

Definition snapping : @SnappingMain host := @TagEngine.specSnapping host workspace.

(** [ui/button] has remote changes to merge, [ui/card] is up to date,
    and the merge of any other component throws. *)
Definition merger : @ComponentMerger host specMergeVersion := {|
  batchOf := fun args _ => (MergeArgs.ids args : list (@BitId host));
  mergeComponent := fun _ id (s : @Store host) =>
    (if id =? "ui/button"
     then Ok (Applied (ApplyVersionResult.mk host id [("button.tsx", "updated")]))
     else if id =? "ui/card"
     then Ok (NothingToMerge "component is already up to date")
     else Throw (BitError "component was not found"),
     s)
|}.

Definition merging : @MergingMain host specMergeVersion :=
  @MergeEngine.specMerging host specMergeVersion merger.

Definition unchanged_store : @Store host := [("ui/button", false); ("ui/card", false)].

Definition tag_world : Eff.World TagEvent (@Store host) :=
  {| Eff.trace := []; Eff.store := unchanged_store |}.

(** The same workspace after an edit of [ui/button]. *)
Definition edited_world : Eff.World TagEvent (@Store host) :=
  {| Eff.trace := []; Eff.store := [("ui/button", true); ("ui/card", false)] |}.

Definition merge_world : Eff.World (@MergeEvent specMergeVersion) (@Store host) :=
  {| Eff.trace := []; Eff.store := unchanged_store |}.

Definition legitimate : @FailedComponent.t host :=
  FailedComponent.mk host "ui/card" "component is already up to date" true.

Definition failed_result (verbose : bool) : @ApplyVersionResults.t host :=
  {| ApplyVersionResults.components := None;
     ApplyVersionResults.version := None;
     ApplyVersionResults.failedComponents := Some [legitimate];
     ApplyVersionResults.removedComponents := None;
     ApplyVersionResults.resolvedComponents := None;
     ApplyVersionResults.abortedComponents := None;
     ApplyVersionResults.mergeSnapResults := None;
     ApplyVersionResults.mergeSnapError := None;
     ApplyVersionResults.leftUnresolvedConflicts := false;
     ApplyVersionResults.verbose := verbose;
     ApplyVersionResults.configMergeResults := None;
     ApplyVersionResults.workspaceDepsUpdates := None |}.

End Demo.

(** Further sample data on the same workspace. *)
Module Sample.

(** A tag result whose [autoTaggedResults] is missing. *)
Definition tagged_without_auto : @TagResults Demo.host :=
  {| taggedComponents := (["ui/button"; "ui/card"] : list (@Component Demo.host));
     autoTaggedResults := None;
     warnings := None;
     newComponents := (["ui/card"] : @BitIds Demo.host);
     publishedPackages := None;
     isSoftTag := false |}.

(** A merge result in which nothing happened. *)
Definition nothing_merged : @ApplyVersionResults.t Demo.host :=
  {| ApplyVersionResults.components := Some ([] : list (@ApplyVersionResult.t Demo.host));
     ApplyVersionResults.version := None;
     ApplyVersionResults.failedComponents := None;
     ApplyVersionResults.removedComponents := None;
     ApplyVersionResults.resolvedComponents := None;
     ApplyVersionResults.abortedComponents := None;
     ApplyVersionResults.mergeSnapResults := None;
     ApplyVersionResults.mergeSnapError := None;
     ApplyVersionResults.leftUnresolvedConflicts := false;
     ApplyVersionResults.verbose := false;
     ApplyVersionResults.configMergeResults := Some [];
     ApplyVersionResults.workspaceDepsUpdates := None |}.

End Sample.

(** * Properties *)

(** ** The tag command *)

Module TagFacts.
Section TagFacts.
Context `{host : Host} {snapping : SnappingMain} {chalk : Chalk}.

Lemma warned_nil w : TagCmd.warned w [] = w.
Proof.
  destruct w as [t s]. unfold TagCmd.warned. simpl. now rewrite app_nil_r.
Qed.

Lemma warned_emit w msgs msg :
  {| Eff.trace := Eff.trace (TagCmd.warned w msgs) ++ [ConsoleWarning msg];
     Eff.store := Eff.store (TagCmd.warned w msgs) |} = TagCmd.warned w (msgs ++ [msg]).
Proof.
  unfold TagCmd.warned. simpl. now rewrite map_app, app_assoc.
Qed.

Lemma when_warned (b : bool) msg w msgs :
  Eff.when b (TagCmd.consoleWarning msg) (TagCmd.warned w msgs)
  = (Ok tt, TagCmd.warned w (msgs ++ if b then [msg] else [])).
Proof.
  destruct b; simpl.
  - unfold TagCmd.consoleWarning, Eff.emit. now rewrite warned_emit.
  - now rewrite app_nil_r.
Qed.

Lemma preflight_effects_from patterns o w msgs0 :
  exists msgs, snd (TagCmd.preflight patterns o (TagCmd.warned w msgs0)) = TagCmd.warned w msgs.
Proof.
  unfold TagCmd.preflight. cbv zeta.
  destruct (Js.is_boolean _); [eexists; reflexivity|].
  destruct (_ && _); [eexists; reflexivity|].
  unfold Eff.bind. rewrite !when_warned.
  repeat match goal with
         | |- context [if ?b then Eff.throw _ else _] => destruct b
         end;
    try (eexists; reflexivity).
  unfold Eff.lift. destruct (TagCmd.getReleaseType _ _ _ _ _); eexists; reflexivity.
Qed.

Lemma preflight_effects patterns o w :
  exists msgs, snd (TagCmd.preflight patterns o w) = TagCmd.warned w msgs.
Proof.
  destruct (preflight_effects_from patterns o w []) as [msgs H].
  rewrite warned_nil in H. now exists msgs.
Qed.


(** Every error of the pre-flight part is a [BitError]. *)
Lemma preflight_throws patterns o w e :
  fst (TagCmd.preflight patterns o w) = Throw e -> exists msg, e = BitError msg.
Proof.
  unfold TagCmd.preflight. cbv zeta.
  destruct (Js.is_boolean _); [simpl; intros [= <-]; eauto|].
  destruct (_ && _); [simpl; intros [= <-]; eauto|].
  unfold Eff.bind, Eff.when, TagCmd.consoleWarning, Eff.emit, Eff.ret.
  repeat match goal with
         | |- context [if ?b then (fun _ => _) else _] => destruct b
         end;
    repeat match goal with
           | |- context [if ?b then Eff.throw _ else _] => destruct b
           end;
    simpl; try (intros [= <-]; eauto; fail);
    unfold Eff.lift, TagCmd.getReleaseType;
    repeat match goal with
           | |- context [if ?b then _ else _] => destruct b
           end;
    simpl; try discriminate; intros [= <-]; eauto.
Qed.

Lemma truthy_default_false v :
  Js.truthy (Js.default (Js.Boolean false) v) = Js.truthy v.
Proof. now destruct v. Qed.

Lemma is_string_default_false v :
  Js.is_string (Js.default (Js.Boolean false) v) = Js.is_string v.
Proof. now destruct v. Qed.

(** What a successful pre-flight part has checked and resolved. *)
Lemma preflight_ok patterns o w params :
  fst (TagCmd.preflight patterns o w) = Ok params ->
  TagCmd.prereleaseIdMisused (TagFlags.prereleaseId o) (TagFlags.increment o) = false /\
  Nat.ltb 1 (length (TagCmd.releaseFlags (TagFlags.patch o) (TagFlags.minor o)
                       (TagFlags.major o) (TagFlags.preRelease o))) = false /\
  TagCmd.getReleaseType (TagFlags.increment o) (TagFlags.major o) (TagFlags.minor o)
    (TagFlags.patch o) (TagFlags.preRelease o) = Ok (TagParams.releaseType params) /\
  TagParams.preReleaseId params
  = TagCmd.getPreReleaseId (TagFlags.prereleaseId o) (TagFlags.preRelease o) /\
  TagParams.ids params = match patterns with Some p => p | None => [] end /\
  TagParams.unmodified params
  = (if Js.truthy (TagFlags.force o)
        && negb (Nat.eqb (length (match patterns with Some p => p | None => [] end)) 0)
     then Js.Boolean true
     else if Js.truthy (TagFlags.scope o) then Js.Boolean true
     else Js.default (Js.Boolean false) (TagFlags.unmodified o)) /\
  TagParams.version params
  = (if Js.truthy (TagFlags.scope o) && Js.is_string (TagFlags.scope o)
     then TagFlags.scope o
     else if Js.truthy (TagFlags.all o) && Js.is_string (TagFlags.all o)
     then TagFlags.all o
     else TagFlags.ver o).
Proof.
  unfold TagCmd.preflight. cbv zeta.
  rewrite !truthy_default_false, !is_string_default_false.
  destruct (Js.is_boolean _); [discriminate|].
  destruct (_ && _); [discriminate|].
  unfold Eff.bind, Eff.when, TagCmd.consoleWarning, Eff.emit, Eff.ret.
  repeat match goal with
         | |- context [if ?b then (fun _ => _) else _] => destruct b eqn:?
         end;
    repeat match goal with
           | |- context [if ?b then Eff.throw _ else _] => destruct b eqn:?
           end;
    simpl; try discriminate;
    unfold Eff.lift;
    destruct (TagCmd.getReleaseType _ _ _ _ _) eqn:Hrt;
    simpl; try discriminate; intros [= <-]; simpl;
    repeat match goal with
           | H : Js.truthy _ = _ |- _ => rewrite H
           end;
    simpl; repeat split; try reflexivity;
    destruct (TagFlags.all o); reflexivity.
Qed.

Lemma preflight_split patterns o w :
  exists msgs,
    TagCmd.preflight patterns o w = (fst (TagCmd.preflight patterns o w), TagCmd.warned w msgs).
Proof.
  destruct (preflight_effects patterns o w) as [msgs H].
  exists msgs. rewrite <- H. now destruct (TagCmd.preflight patterns o w).
Qed.

(** An error of the pre-flight part is the outcome of [report]: the
    engine is not reached. *)
Lemma report_preflight_throw patterns o w e w' :
  TagCmd.preflight patterns o w = (Throw e, w') ->
  TagCmd.report patterns o w = (Throw e, w').
Proof.
  intros H. unfold TagCmd.report, Eff.bind. now rewrite H.
Qed.

(** Once the pre-flight part has resolved [params], [report] calls the
    engine with them, once, and prints what it gives. *)
Lemma report_preflight_ok patterns o w params w' :
  TagCmd.preflight patterns o w = (Ok params, w') ->
  TagCmd.report patterns o w
  = let (r, s) := tag params (Eff.store w') in
    let w'' := {| Eff.trace := Eff.trace w' ++ [TagInvoked params]; Eff.store := s |} in
    match r with
    | Throw e => (Throw e, w'')
    | Ok None => (Ok (chalk_yellow NOTHING_TO_TAG_MSG), w'')
    | Ok (Some results) => (TagCmd.renderResults results, w'')
    end.
Proof.
  intros H. unfold TagCmd.report, Eff.bind, Eff.call. rewrite H.
  destruct (tag params (Eff.store w')) as [[[results|]|e] s]; reflexivity.
Qed.

(** A failed pre-flight check: a [BitError], console warnings at most,
    the store as it was, no call of the engine. *)
Lemma report_rejects patterns o w :
  is_throw (fst (TagCmd.preflight patterns o w)) = true ->
  exists msg msgs,
    TagCmd.report patterns o w = (Throw (BitError msg), TagCmd.warned w msgs).
Proof.
  intros H. destruct (preflight_split patterns o w) as [msgs Hw].
  destruct (fst (TagCmd.preflight patterns o w)) as [p|e] eqn:Hr; [discriminate|].
  destruct (preflight_throws _ _ _ _ Hr) as [msg ->].
  exists msg, msgs. now apply report_preflight_throw.
Qed.

Lemma not_ok_is_throw {A} (r : Res A) :
  (forall a, r <> Ok a) -> is_throw r = true.
Proof. destruct r; [intros H; now elim (H a)|reflexivity]. Qed.

(** The [--prerelease-id] option is rejected unless [--increment] names
    one of the four pre-release levels. *)
Lemma prerelease_id_option_checked patterns o w :
  Js.truthy (TagFlags.prereleaseId o) = true ->
  Js.includes ["premajor"; "preminor"; "prepatch"; "prerelease"] (TagFlags.increment o) = false ->
  exists msg msgs,
    TagCmd.report patterns o w = (Throw (BitError msg), TagCmd.warned w msgs).
Proof.
  intros Hid Hinc. apply report_rejects, not_ok_is_throw. intros params Hok.
  destruct (preflight_ok _ _ _ _ Hok) as (Hmis & _ & Hrt & _).
  unfold TagCmd.prereleaseIdMisused in Hmis. rewrite Hid in Hmis. simpl in Hmis.
  unfold TagCmd.getReleaseType in Hrt.
  destruct (Js.truthy (TagFlags.increment o)); [|discriminate].
  simpl in Hmis.
  destruct (Js.includes RELEASE_TYPES (TagFlags.increment o)) eqn:Hin; [|discriminate].
  destruct (TagFlags.increment o) as [| |s|]; try discriminate.
  simpl in *.
  repeat match goal with
         | H : context [(s =? ?c)%string] |- _ => destruct (s =? c)%string; simpl in H
         end; discriminate.
Qed.


Lemma getReleaseType_increment s major minor patch preRelease :
  In s RELEASE_TYPES ->
  TagCmd.getReleaseType (Js.Str s) major minor patch preRelease = Ok (Js.Str s).
Proof.
  intros Hin. unfold TagCmd.getReleaseType.
  assert (Hs : s <> "").
  { intros ->. simpl in Hin. intuition discriminate. }
  assert (Hex : existsb (String.eqb s) RELEASE_TYPES = true).
  { apply existsb_exists. exists s. split; [assumption|apply String.eqb_refl]. }
  apply String.eqb_neq in Hs.
  unfold Js.truthy, Js.includes. now rewrite Hs, Hex.
Qed.

Lemma includes_false_iff arr s :
  Js.includes arr (Js.Str s) = false <-> ~ In s arr.
Proof.
  simpl. split.
  - intros H Hin. assert (existsb (String.eqb s) arr = true); [|congruence].
    apply existsb_exists. exists s. split; [assumption|apply String.eqb_refl].
  - intros H. destruct (existsb (String.eqb s) arr) eqn:E; [|reflexivity].
    apply existsb_exists in E. destruct E as (x & Hx & Hsx).
    apply String.eqb_eq in Hsx. subst x. contradiction.
Qed.

(** C6.  A tag invocation in which more than one of the bump flags
    [patch], [minor], [major], [pre-release] is set (truthy, which is how
    the command counts them) fails with a [BitError], the error of the
    pre-flight validation: the engine is not called (no [TagInvoked] is
    added to the trace, which grows by console warnings at most) and the
    store is as it was. *)
Theorem tag_rejects_several_bump_flags patterns o w :
  1 < length (TagCmd.releaseFlags (TagFlags.patch o) (TagFlags.minor o)
                (TagFlags.major o) (TagFlags.preRelease o)) ->
  exists msg msgs,
    TagCmd.report patterns o w = (Throw (BitError msg), TagCmd.warned w msgs).
Proof.
  intros Hflags. apply report_rejects, not_ok_is_throw. intros params Hok.
  destruct (preflight_ok _ _ _ _ Hok) as (_ & Hlt & _).
  apply Nat.ltb_ge in Hlt. lia.
Qed.

(** C7, amended.  When the increment level of a tag invocation is a
    non-empty string that is not one of [RELEASE_TYPES], the invocation
    fails with a [BitError] before the engine is called and with the
    store as it was.  A level that is one of [RELEASE_TYPES] is what
    [getReleaseType] returns, whatever the other flags, and is the
    [releaseType] of the parameters that a successful pre-flight part
    hands to the engine.  (The empty string is taken as no level at
    all: the release type then comes from the other flags or is the
    default.) *)
Theorem tag_release_type_validated patterns o w s :
  TagFlags.increment o = Js.Str s ->
  s <> "" ->
  (~ In s RELEASE_TYPES ->
   exists msg msgs,
     TagCmd.report patterns o w = (Throw (BitError msg), TagCmd.warned w msgs)) /\
  (In s RELEASE_TYPES ->
   (forall major minor patch preRelease,
      TagCmd.getReleaseType (Js.Str s) major minor patch preRelease = Ok (Js.Str s)) /\
   (forall params,
      fst (TagCmd.preflight patterns o w) = Ok params ->
      TagParams.releaseType params = Js.Str s)).
Proof.
  intros Hinc Hs. split.
  - intros Hnot. apply report_rejects, not_ok_is_throw. intros params Hok.
    destruct (preflight_ok _ _ _ _ Hok) as (_ & _ & Hrt & _).
    rewrite Hinc in Hrt. unfold TagCmd.getReleaseType in Hrt.
    apply String.eqb_neq in Hs.
    apply (includes_false_iff RELEASE_TYPES) in Hnot.
    unfold Js.truthy in Hrt. rewrite Hs, Hnot in Hrt. discriminate.
  - intros Hin. split.
    + intros. now apply getReleaseType_increment.
    + intros params Hok.
      destruct (preflight_ok _ _ _ _ Hok) as (_ & _ & Hrt & _).
      rewrite Hinc, getReleaseType_increment in Hrt by assumption.
      now injection Hrt.
Qed.

(** C8.  The flags of a tag invocation that passes the pre-flight checks
    are resolved into the one object [params], with which the engine is
    called once, and:
    - an increment level that is given is the release type, whatever
      the flags [patch], [minor], [major] and [pre-release];
    - with no level and none of these flags the release type is the
      default, patch; with no level the flag that is set gives it;
    - the version is the string given to [--scope], else the string
      given to [--all], else [--ver];
    - [--scope] sets [unmodified], and so does [--force] when there are
      patterns. *)
Theorem tag_flags_resolved patterns o w params :
  fst (TagCmd.preflight patterns o w) = Ok params ->
  (Js.truthy (TagFlags.increment o) = true ->
   TagParams.releaseType params = TagFlags.increment o) /\
  (Js.truthy (TagFlags.increment o) = false ->
   Js.truthy (TagFlags.patch o) = false -> Js.truthy (TagFlags.minor o) = false ->
   Js.truthy (TagFlags.major o) = false -> Js.truthy (TagFlags.preRelease o) = false ->
   TagParams.releaseType params = Js.Str "patch") /\
  (Js.truthy (TagFlags.increment o) = false ->
   TagParams.releaseType params
   = if Js.truthy (TagFlags.major o) then Js.Str "major"
     else if Js.truthy (TagFlags.minor o) then Js.Str "minor"
     else if Js.truthy (TagFlags.patch o) then Js.Str "patch"
     else if Js.truthy (TagFlags.preRelease o) then Js.Str "prerelease"
     else Js.Str "patch") /\
  (forall v, TagFlags.scope o = Js.Str v -> v <> "" ->
             TagParams.version params = Js.Str v) /\
  (forall v, TagFlags.all o = Js.Str v -> v <> "" ->
             Js.truthy (TagFlags.scope o) && Js.is_string (TagFlags.scope o) = false ->
             TagParams.version params = Js.Str v) /\
  (Js.truthy (TagFlags.scope o) && Js.is_string (TagFlags.scope o) = false ->
   Js.truthy (TagFlags.all o) && Js.is_string (TagFlags.all o) = false ->
   TagParams.version params = TagFlags.ver o) /\
  (Js.truthy (TagFlags.scope o) = true ->
   TagParams.unmodified params = Js.Boolean true) /\
  (Js.truthy (TagFlags.force o) = true ->
   (exists p ps, patterns = Some (p :: ps)) ->
   TagParams.unmodified params = Js.Boolean true) /\
  exists msgs,
    Eff.trace (snd (TagCmd.report patterns o w))
    = Eff.trace w ++ map ConsoleWarning msgs ++ [TagInvoked params].
Proof.
  intros Hok.
  destruct (preflight_ok _ _ _ _ Hok) as (_ & _ & Hrt & _ & _ & Hunmod & Hver).
  repeat split.
  - intros Hinc. unfold TagCmd.getReleaseType in Hrt. rewrite Hinc in Hrt.
    destruct (negb _); [discriminate|]. now injection Hrt.
  - intros Hinc Hpatch Hminor Hmajor Hpre. unfold TagCmd.getReleaseType in Hrt.
    rewrite Hinc, Hpatch, Hminor, Hmajor, Hpre in Hrt. now injection Hrt.
  - intros Hinc. unfold TagCmd.getReleaseType in Hrt. rewrite Hinc in Hrt.
    destruct (Js.truthy (TagFlags.major o)), (Js.truthy (TagFlags.minor o)),
      (Js.truthy (TagFlags.patch o)), (Js.truthy (TagFlags.preRelease o));
      now injection Hrt.
  - intros v Hscope Hv. rewrite Hver, Hscope. simpl.
    apply String.eqb_neq in Hv. now rewrite Hv.
  - intros v Hall Hv Hscope. rewrite Hver, Hscope, Hall. simpl.
    apply String.eqb_neq in Hv. now rewrite Hv.
  - intros Hscope Hall. now rewrite Hver, Hscope, Hall.
  - intros Hscope. rewrite Hunmod, Hscope. now destruct (_ && _).
  - intros Hforce (p & ps & ->). now rewrite Hunmod, Hforce.
  - destruct (preflight_split patterns o w) as [msgs Hw]. rewrite Hok in Hw.
    exists msgs. rewrite (report_preflight_ok _ _ _ _ _ Hw).
    destruct (tag params _) as [[[results|]|e] st]; simpl;
      try destruct (TagCmd.renderResults results); simpl;
      now rewrite app_assoc.
Qed.

(** C2, at the input [{ increment: 'major', preRelease: 'dev' }]
    ([bit tag --increment major --pre-release dev]): the pre-flight part
    lets it through and the engine is called with the release type
    [major] and the pre-release identifier [dev]. *)
Theorem tag_prerelease_sugar_unchecked w :
  let o := TagFlags.of_object
             [("increment", Js.Str "major"); ("preRelease", Js.Str "dev")] in
  exists params msgs,
    TagCmd.preflight None o w = (Ok params, TagCmd.warned w msgs) /\
    TagParams.releaseType params = Js.Str "major" /\
    TagParams.preReleaseId params = Js.Str "dev" /\
    In (TagInvoked params) (Eff.trace (snd (TagCmd.report None o w))).
Proof.
  intros o.
  destruct (preflight_split None o w) as [msgs Hw].
  assert (Hfst : exists params, fst (TagCmd.preflight None o w) = Ok params /\
                 TagParams.releaseType params = Js.Str "major" /\
                 TagParams.preReleaseId params = Js.Str "dev").
  { eexists. split; [reflexivity|]. split; reflexivity. }
  destruct Hfst as (params & Hok & Hrt & Hid).
  rewrite Hok in Hw. exists params, msgs. repeat split; try assumption.
  rewrite (report_preflight_ok _ _ _ _ _ Hw).
  destruct (tag params _) as [[[results|]|e] st]; simpl;
    try destruct (TagCmd.renderResults results); simpl;
    apply in_or_app; right; left; reflexivity.
Qed.

End TagFacts.
End TagFacts.

(** ** The tag engine of the spec behind the command *)

Module TagEngineFacts.
Section TagEngineFacts.
Context `{host : Host} {workspace : TagWorkspace} {chalk : Chalk}.

Lemma candidates_none params s :
  Js.truthy (TagParams.unmodified params) = false ->
  (forall c, In c (resolveComponents (TagParams.ids params) s) ->
             hasPendingChanges c s = false) ->
  TagEngine.candidates params s = [].
Proof.
  intros Hun Hnone. unfold TagEngine.candidates. rewrite Hun. simpl.
  induction (resolveComponents (TagParams.ids params) s) as [|c cs IH]; [reflexivity|].
  simpl. rewrite (Hnone c) by now left.
  apply IH. intros c' Hc'. apply Hnone. now right.
Qed.

(** C4.  For a tag invocation whose flags pass the pre-flight checks and
    resolve to [params] with [unmodified] not set, when none of the
    components that the patterns denote has a pending change: every
    component is excluded (there is no candidate), the engine gives the
    absent result without an error, and [report] returns the
    [NOTHING_TO_TAG_MSG] text; nothing is thrown, nothing is reported as
    failed, and the store is as it was. *)
Theorem nothing_to_tag patterns o w params :
  fst (TagCmd.preflight patterns o w) = Ok params ->
  Js.truthy (TagParams.unmodified params) = false ->
  (forall c, In c (resolveComponents (TagParams.ids params) (Eff.store w)) ->
             hasPendingChanges c (Eff.store w) = false) ->
  TagEngine.candidates params (Eff.store w) = [] /\
  TagEngine.specTag params (Eff.store w) = (Ok None, Eff.store w) /\
  exists msgs,
    TagCmd.report (snapping := TagEngine.specSnapping) patterns o w
    = (Ok (chalk_yellow NOTHING_TO_TAG_MSG),
       {| Eff.trace := Eff.trace w ++ map ConsoleWarning msgs ++ [TagInvoked params];
          Eff.store := Eff.store w |}).
Proof.
  intros Hok Hun Hnone.
  pose proof (candidates_none _ _ Hun Hnone) as Hcand.
  assert (Htag : TagEngine.specTag params (Eff.store w) = (Ok None, Eff.store w)).
  { unfold TagEngine.specTag. now rewrite Hcand. }
  repeat split; try assumption.
  destruct (TagFacts.preflight_split patterns o w) as [msgs Hw]. rewrite Hok in Hw.
  exists msgs. rewrite (TagFacts.report_preflight_ok _ _ _ _ _ Hw).
  simpl. rewrite Htag. simpl. now rewrite app_assoc.
Qed.

End TagEngineFacts.
End TagEngineFacts.

(** ** The merge command *)

Module MergeFacts.
Section MergeFacts.
Context `{host : Host} `{mv : MergeVersion} {merging : MergingMain} {chalk : Chalk}.

(** C3.  A merge invocation with both [abort] and [resolve] set throws:
    the error of [getMergeStrategy] if the strategy flags are rejected
    first, the [BitError] of the exclusion otherwise.  The world is left
    as it was: the engine is not called and the store has not changed. *)
Theorem merge_rejects_abort_with_resolve ids o w :
  Js.truthy (MergeFlags.abort o) = true ->
  Js.truthy (MergeFlags.resolve o) = true ->
  exists e,
    MergeCmd.report ids o w = (Throw e, w) /\
    (forall strategy,
       getMergeStrategy (Js.default (Js.Boolean false) (MergeFlags.ours o))
                        (Js.default (Js.Boolean false) (MergeFlags.theirs o))
                        (Js.default (Js.Boolean false) (MergeFlags.manual o))
       = Ok strategy ->
       e = BitError MergeCmd.msg_abort_resolve).
Proof.
  intros Habort Hresolve.
  unfold MergeCmd.report, Eff.bind, Eff.lift. cbv zeta.
  rewrite !TagFacts.truthy_default_false, Habort, Hresolve.
  destruct (getMergeStrategy _ _ _) as [strategy|e].
  - eexists. split; [reflexivity|]. reflexivity.
  - exists e. split; [reflexivity|]. discriminate.
Qed.

(** C9.  A merge invocation with [noSnap] set and a message given throws
    before the engine is called, the world left as it was; the error is
    the [BitError] of this exclusion unless an earlier check (the
    strategy flags, [abort] with [resolve]) has already thrown. *)
Theorem merge_rejects_nosnap_with_message ids o w :
  Js.truthy (MergeFlags.noSnap o) = true ->
  Js.truthy (MergeFlags.message o) = true ->
  exists e,
    MergeCmd.report ids o w = (Throw e, w) /\
    (forall strategy,
       getMergeStrategy (Js.default (Js.Boolean false) (MergeFlags.ours o))
                        (Js.default (Js.Boolean false) (MergeFlags.theirs o))
                        (Js.default (Js.Boolean false) (MergeFlags.manual o))
       = Ok strategy ->
       Js.truthy (MergeFlags.abort o) && Js.truthy (MergeFlags.resolve o) = false ->
       e = BitError MergeCmd.msg_nosnap_message).
Proof.
  intros HnoSnap Hmessage.
  unfold MergeCmd.report, Eff.bind, Eff.lift. cbv zeta.
  rewrite !TagFacts.truthy_default_false, HnoSnap, Hmessage.
  destruct (getMergeStrategy _ _ _) as [strategy|e].
  - destruct (Js.truthy (MergeFlags.abort o) && Js.truthy (MergeFlags.resolve o)).
    + eexists. split; [reflexivity|]. discriminate.
    + eexists. split; [reflexivity|]. reflexivity.
  - exists e. split; [reflexivity|]. discriminate.
Qed.

End MergeFacts.
End MergeFacts.

(** ** The merge report *)

Module MergeReportFacts.
Section MergeReportFacts.
Context `{host : Host} {chalk : Chalk}.

Lemma append_nonempty a b : b <> "" -> a +++ b <> "".
Proof.
  intros Hb. destruct a as [|c a]; simpl; [assumption|discriminate].
Qed.

Lemma failure_entry_nonempty color f :
  (MergeReport.failure_entry color f =? "") = false.
Proof.
  apply String.eqb_neq. unfold MergeReport.failure_entry.
  apply append_nonempty. discriminate.
Qed.

Lemma join_nonempty sep x l : x <> "" -> Js.join sep (x :: l) <> "".
Proof.
  intros Hx. unfold Js.join. simpl. destruct l as [|y l]; [assumption|].
  destruct x as [|c x]; [contradiction|discriminate].
Qed.

Lemma compact_nonempty l : Forall (fun s => s <> "") (compact l).
Proof.
  induction l as [|[s|] l IH]; simpl; [constructor| |assumption].
  destruct (s =? "") eqn:E; [assumption|].
  constructor; [now apply String.eqb_neq|assumption].
Qed.

Lemma failure_line_entry r f :
  MergeReport.failure_line r f
  = if negb (ApplyVersionResults.verbose r) && FailedComponent.unchangedLegitimately f
    then None
    else Some (MergeReport.failure_entry
                 (if FailedComponent.unchangedLegitimately f then chalk_white else chalk_red)
                 f).
Proof. reflexivity. Qed.

Lemma listing_cons r f failed :
  MergeReport.failure_listing r (f :: failed)
  = if negb (ApplyVersionResults.verbose r) && FailedComponent.unchangedLegitimately f
    then MergeReport.failure_listing r failed
    else MergeReport.failure_entry
           (if FailedComponent.unchangedLegitimately f then chalk_white else chalk_red) f
         :: MergeReport.failure_listing r failed.
Proof.
  unfold MergeReport.failure_listing. cbn [map]. rewrite failure_line_entry.
  destruct (negb _ && _); cbn [compact]; [reflexivity|].
  now rewrite failure_entry_nonempty.
Qed.

(** Without [verbose] the listing has the genuinely failed components
    and no other. *)
Lemma listing_quiet r failed :
  ApplyVersionResults.verbose r = false ->
  MergeReport.failure_listing r failed
  = map (MergeReport.failure_entry chalk_red)
        (filter (fun f => negb (FailedComponent.unchangedLegitimately f)) failed).
Proof.
  intros Hv. induction failed as [|f failed IH]; [reflexivity|].
  rewrite listing_cons, Hv, IH. cbn [filter negb andb].
  now destruct (FailedComponent.unchangedLegitimately f).
Qed.

(** With [verbose] every failed component is listed. *)
Lemma listing_verbose r failed :
  ApplyVersionResults.verbose r = true ->
  MergeReport.failure_listing r failed
  = map (fun f =>
           MergeReport.failure_entry
             (if FailedComponent.unchangedLegitimately f then chalk_white else chalk_red) f)
        failed.
Proof.
  intros Hv. induction failed as [|f failed IH]; [reflexivity|].
  now rewrite listing_cons, Hv, IH.
Qed.

Lemma filter_all_legitimate (failed : list FailedComponent.t) :
  forallb FailedComponent.unchangedLegitimately failed = true ->
  filter (fun f => negb (FailedComponent.unchangedLegitimately f)) failed = [].
Proof.
  induction failed as [|f failed IH]; [reflexivity|].
  simpl. intros H. apply andb_prop in H as [Hf Hrest]. rewrite Hf. simpl. auto.
Qed.

Lemma filter_some_genuine (failed : list FailedComponent.t) :
  forallb FailedComponent.unchangedLegitimately failed = false ->
  filter (fun f => negb (FailedComponent.unchangedLegitimately f)) failed <> [].
Proof.
  induction failed as [|f failed IH]; [discriminate|].
  simpl. destruct (FailedComponent.unchangedLegitimately f); simpl; [exact IH|discriminate].
Qed.

(** The failure output when there is something to list. *)
Lemma failure_output_listing r failed x entries :
  ApplyVersionResults.failedComponents r = Some failed ->
  failed <> [] ->
  MergeReport.failure_listing r failed = x :: entries ->
  MergeReport.getFailureOutput r
  = nl +++ chalk_underline (nl +++ "the merge has been skipped on the following component(s)")
    +++ nl +++ Js.join nl (x :: entries) +++ nl +++ nl.
Proof.
  intros Hfailed Hne Hlisting. unfold MergeReport.getFailureOutput. rewrite Hfailed.
  destruct failed as [|f failed]; [contradiction|].
  pose proof (compact_nonempty (map (MergeReport.failure_line r) (f :: failed))) as Hall.
  fold (MergeReport.failure_listing r (f :: failed)) in Hall. rewrite Hlisting in *.
  inversion Hall as [|? ? Hx _]; subst.
  pose proof (join_nonempty nl x entries Hx) as Hjoin.
  apply String.eqb_neq in Hjoin. cbv zeta. now rewrite Hjoin.
Qed.

(** C10.  In the report of a merge result with failed components:
    - without [verbose], a failed component whose
      [unchangedLegitimately] flag is true has no entry: the failure
      output is the title followed by the entries, in red, of the other
      failed components;
    - without [verbose], when all the failures are legitimate, the
      failure output is the line that only counts them and points to
      [--verbose];
    - with [verbose], every failed component has its entry, in white
      when it is legitimately unchanged and in red otherwise;
    - the summary has, after Total Merged, the number of the
      legitimately unchanged components as Total Unchanged and the
      number of the others as Total Failed, and it is the same text
      whatever the [verbose] flag. *)
Theorem merge_report_legitimate_failures r failed :
  ApplyVersionResults.failedComponents r = Some failed ->
  failed <> [] ->
  let entry := fun (color : string -> string) (f : FailedComponent.t) =>
                 chalk_bold (idToString (FailedComponent.id f)) +++ " - " +++
                 color (FailedComponent.failureMessage f) in
  let listing := fun entries : list string =>
                   nl +++
                   chalk_underline
                     (nl +++ "the merge has been skipped on the following component(s)") +++
                   nl +++ Js.join nl entries +++ nl +++ nl in
  let genuine := filter (fun f => negb (FailedComponent.unchangedLegitimately f)) failed in
  let summary :=
    nl +++ nl +++ chalk_bold_underline "Merge Summary" +++
    nl +++ "Total Merged: " +++
    chalk_bold (Js.nat_to_string
                  (match ApplyVersionResults.components r with
                   | Some components => length components
                   | None => 0
                   end)) +++
    nl +++ "Total Unchanged: " +++
    chalk_bold (Js.nat_to_string
                  (length (filter FailedComponent.unchangedLegitimately failed))) +++
    nl +++ "Total Failed: " +++ chalk_bold (Js.nat_to_string (length genuine)) +++
    nl +++ "Total Snapped: " +++
    chalk_bold (Js.nat_to_string
                  (match ApplyVersionResults.mergeSnapResults r with
                   | Some results =>
                       length (snappedComponents results) + length (autoSnappedResults results)
                   | None => 0
                   end)) +++
    nl +++ "Total Removed: " +++
    chalk_bold (match ApplyVersionResults.removedComponents r with
                | Some removed => Js.nat_to_string (length removed)
                | None => "0"
                end) in
  (ApplyVersionResults.verbose r = false ->
   (forall f, FailedComponent.unchangedLegitimately f = true ->
              MergeReport.failure_line r f = None) /\
   (forallb FailedComponent.unchangedLegitimately failed = false ->
    MergeReport.getFailureOutput r = listing (map (entry chalk_red) genuine)) /\
   (forallb FailedComponent.unchangedLegitimately failed = true ->
    MergeReport.getFailureOutput r
    = chalk_bold (nl +++ "the merge has been skipped on " +++
                  Js.nat_to_string (length failed) +++ " component(s) legitimately") +++
      nl +++ "(use --verbose to list them next time)")) /\
  (ApplyVersionResults.verbose r = true ->
   MergeReport.getFailureOutput r
   = listing (map (fun f =>
                     entry (if FailedComponent.unchangedLegitimately f
                            then chalk_white else chalk_red) f)
                  failed)) /\
  MergeReport.getSummary r = summary /\
  (forall v, MergeReport.getSummary (MergeReport.withVerbose v r) = summary).
Proof.
  intros Hfailed Hne entry listing genuine summary.
  split; [|split; [|split]].
  - intros Hv. split; [|split].
    + intros f Hf. rewrite failure_line_entry. now rewrite Hv, Hf.
    + intros Hsome. pose proof (filter_some_genuine _ Hsome) as Hgenuine.
      fold genuine in Hgenuine.
      pose proof (listing_quiet r failed Hv) as Hlisting. fold genuine in Hlisting.
      destruct genuine as [|g rest] eqn:Hg; [contradiction|].
      cbn [map] in Hlisting.
      rewrite (failure_output_listing r failed _ _ Hfailed Hne Hlisting). reflexivity.
    + intros Hall. unfold MergeReport.getFailureOutput. rewrite Hfailed.
      destruct failed as [|f failed]; [contradiction|].
      rewrite (listing_quiet _ _ Hv), (filter_all_legitimate _ Hall). reflexivity.
  - intros Hv. pose proof (listing_verbose r failed Hv) as Hlisting.
    destruct failed as [|f failed]; [contradiction|].
    cbn [map] in Hlisting.
    rewrite (failure_output_listing r (f :: failed) _ _ Hfailed Hne Hlisting). reflexivity.
  - unfold MergeReport.getSummary, MergeReport.merged, MergeReport.unchangedLegitimately,
      MergeReport.failedToMerge, MergeReport.autoSnapped, MergeReport.removedCount.
    rewrite Hfailed. subst summary genuine. cbv zeta.
    now destruct (ApplyVersionResults.mergeSnapResults r).
  - intros v.
    unfold MergeReport.getSummary, MergeReport.merged, MergeReport.unchangedLegitimately,
      MergeReport.failedToMerge, MergeReport.autoSnapped, MergeReport.removedCount.
    cbn [MergeReport.withVerbose ApplyVersionResults.components
         ApplyVersionResults.failedComponents ApplyVersionResults.mergeSnapResults
         ApplyVersionResults.removedComponents].
    rewrite Hfailed. subst summary genuine. cbv zeta.
    now destruct (ApplyVersionResults.mergeSnapResults r).
Qed.

End MergeReportFacts.
End MergeReportFacts.

(** ** The merge strategy and the merge engine of the spec *)

Module MergeStrategyFacts.
Section MergeStrategyFacts.
Context `{host : Host} {merging : @MergingMain host specMergeVersion} {chalk : Chalk}.

(** The choice of the strategy by the truth values of the three flags. *)
Lemma specGetMergeStrategy_table ours theirs manual :
  specGetMergeStrategy ours theirs manual
  = match Js.truthy ours, Js.truthy theirs, Js.truthy manual with
    | false, false, false => Ok strategy_manual
    | true, false, false => Ok strategy_ours
    | false, true, false => Ok strategy_theirs
    | false, false, true => Ok strategy_manual
    | _, _, _ =>
        Throw (BitError "the strategies ours, theirs and manual are mutually exclusive")
    end.
Proof.
  unfold specGetMergeStrategy.
  now destruct (Js.truthy ours), (Js.truthy theirs), (Js.truthy manual).
Qed.

(** C5.  With [chosen] the number of the flags [ours], [theirs],
    [manual] that are set in a merge invocation:
    - more than one: the invocation is rejected, with a [BitError] and
      the world left as it was;
    - none: the strategy is [manual], and it is the strategy that the
      engine is called with when the other flags are accepted;
    - one: the strategy is the one of the flag. *)
Theorem merge_strategy_exclusive_default_manual ids o w :
  let ours := MergeFlags.ours o in
  let theirs := MergeFlags.theirs o in
  let manual := MergeFlags.manual o in
  let chosen := length (filter Js.truthy [ours; theirs; manual]) in
  let strategy :=
    getMergeStrategy (Js.default (Js.Boolean false) ours)
                     (Js.default (Js.Boolean false) theirs)
                     (Js.default (Js.Boolean false) manual) in
  (1 < chosen ->
   exists msg, strategy = Throw (BitError msg) /\
               MergeCmd.report ids o w = (Throw (BitError msg), w)) /\
  (chosen = 0 ->
   strategy = Ok strategy_manual /\
   (Js.truthy (MergeFlags.abort o) && Js.truthy (MergeFlags.resolve o) = false ->
    Js.truthy (MergeFlags.noSnap o) && Js.truthy (MergeFlags.message o) = false ->
    exists args,
      MergeArgs.mergeStrategy args = strategy_manual /\
      Eff.trace (snd (MergeCmd.report ids o w)) = Eff.trace w ++ [MergeInvoked args])) /\
  (chosen = 1 ->
   strategy = Ok (if Js.truthy ours then strategy_ours
                  else if Js.truthy theirs then strategy_theirs
                  else strategy_manual)).
Proof.
  intros ours theirs manual chosen strategy.
  assert (Hstrategy : strategy = specGetMergeStrategy
                                   (Js.default (Js.Boolean false) ours)
                                   (Js.default (Js.Boolean false) theirs)
                                   (Js.default (Js.Boolean false) manual)) by reflexivity.
  rewrite specGetMergeStrategy_table, !TagFacts.truthy_default_false in Hstrategy.
  assert (Hreport : forall e, strategy = Throw e -> MergeCmd.report ids o w = (Throw e, w)).
  { intros e He. unfold MergeCmd.report, Eff.bind, Eff.lift. cbv zeta.
    fold ours theirs manual strategy. now rewrite He. }
  subst chosen. cbn [filter].
  destruct (Js.truthy ours), (Js.truthy theirs), (Js.truthy manual);
    cbn [length app]; (split; [|split]); intros Hn; try lia; try assumption;
    try (eexists; split; [eassumption|now apply Hreport]).
  split; [assumption|].
  intros Habort HnoSnap.
  unfold MergeCmd.report, Eff.bind, Eff.lift, Eff.call. cbv zeta.
  fold ours theirs manual strategy. rewrite Hstrategy.
  rewrite !TagFacts.truthy_default_false, Habort, HnoSnap.
  match goal with
  | |- context [merge ?a] => exists a; split; [reflexivity|]; destruct (merge a _) as [[r|e] s]
  end; [|reflexivity].
  simpl.
  destruct (ApplyVersionResults.resolvedComponents r); [reflexivity|].
  destruct (ApplyVersionResults.abortedComponents r); reflexivity.
Qed.

End MergeStrategyFacts.
End MergeStrategyFacts.

Module MergeEngineFacts.
Section MergeEngineFacts.
Context `{host : Host} `{mv : MergeVersion} {merger : ComponentMerger} {chalk : Chalk}.

(** The loop against the merges of the single components: where the
    store ends up, that every component of the batch has its entry, and
    that every entry comes from a component of the batch. *)
Lemma mergeBatch_spec args batch :
  forall s,
    exists components failed,
      MergeEngine.mergeBatch args batch s
      = (components, failed,
         fold_left (fun st id => snd (mergeComponent args id st)) batch s) /\
      length components + length failed = length batch /\
      (forall pre id post,
         batch = pre ++ id :: post ->
         match fst (mergeComponent args id
                      (fold_left (fun st i => snd (mergeComponent args i st)) pre s)) with
         | Ok (Applied result) => In result components
         | Ok (NothingToMerge reason) =>
             In {| FailedComponent.id := id;
                   FailedComponent.failureMessage := reason;
                   FailedComponent.unchangedLegitimately := true |} failed
         | Throw e =>
             In {| FailedComponent.id := id;
                   FailedComponent.failureMessage := exn_message e;
                   FailedComponent.unchangedLegitimately := false |} failed
         end) /\
      (forall f,
         In f failed ->
         exists pre id post,
           batch = pre ++ id :: post /\
           FailedComponent.id f = id /\
           match fst (mergeComponent args id
                        (fold_left (fun st i => snd (mergeComponent args i st)) pre s)) with
           | Ok (Applied _) => False
           | Ok (NothingToMerge reason) =>
               FailedComponent.failureMessage f = reason /\
               FailedComponent.unchangedLegitimately f = true
           | Throw e =>
               FailedComponent.failureMessage f = exn_message e /\
               FailedComponent.unchangedLegitimately f = false
           end) /\
      (forall result,
         In result components ->
         exists pre id post,
           batch = pre ++ id :: post /\
           fst (mergeComponent args id
                  (fold_left (fun st i => snd (mergeComponent args i st)) pre s))
           = Ok (Applied result)).
Proof.
  induction batch as [|id0 rest IH]; intros s.
  - exists [], []. repeat split; try reflexivity.
    + intros pre id post H. now destruct pre.
    + intros f [].
    + intros result [].
  - destruct (IH (snd (mergeComponent args id0 s)))
      as (components & failed & Hrun & Hlen & Hall & Hfailed & Hmerged).
    cbn [MergeEngine.mergeBatch fold_left].
    destruct (mergeComponent args id0 s) as [step s1] eqn:Hstep. cbn [snd] in *.
    rewrite Hrun.
    assert (Hhead : forall pre id post,
               id0 :: rest = pre ++ id :: post ->
               (pre = [] /\ id = id0 /\
                fst (mergeComponent args id
                       (fold_left (fun st i => snd (mergeComponent args i st)) pre s))
                = step) \/
               (exists pre', pre = id0 :: pre' /\ rest = pre' ++ id :: post /\
                  fold_left (fun st i => snd (mergeComponent args i st)) pre s
                  = fold_left (fun st i => snd (mergeComponent args i st)) pre' s1)).
    { intros [|x pre'] id post H; injection H as <- H.
      - left. cbn [fold_left]. now rewrite Hstep.
      - right. exists pre'. cbn [fold_left]. now rewrite Hstep. }
    assert (Htail : forall pre' id post,
               rest = pre' ++ id :: post ->
               id0 :: rest = (id0 :: pre') ++ id :: post /\
               fold_left (fun st i => snd (mergeComponent args i st)) (id0 :: pre') s
               = fold_left (fun st i => snd (mergeComponent args i st)) pre' s1).
    { intros pre' id post ->. cbn [fold_left]. now rewrite Hstep. }
    destruct step as [[result|reason]|e].
    + exists (result :: components), failed. split; [reflexivity|].
      split; [simpl; lia|]. split; [|split].
      * intros pre id post H.
        destruct (Hhead _ _ _ H) as [(-> & -> & ->)|(pre' & -> & Hrest & ->)].
        -- now left.
        -- specialize (Hall _ _ _ Hrest).
           destruct (fst (mergeComponent args id _)) as [[r|r]|e];
             [now right|assumption|assumption].
      * intros f Hf. destruct (Hfailed f Hf) as (pre' & id & post & Hrest & Hid & Hm).
        destruct (Htail _ _ _ Hrest) as [Hb Hs].
        exists (id0 :: pre'), id, post. rewrite Hs. auto.
      * intros r [<-|Hr].
        -- exists [], id0, rest. cbn [fold_left app]. rewrite Hstep. auto.
        -- destruct (Hmerged r Hr) as (pre' & id & post & Hrest & Hm).
           destruct (Htail _ _ _ Hrest) as [Hb Hs].
           exists (id0 :: pre'), id, post. rewrite Hs. auto.
    + eexists components, (_ :: failed). split; [reflexivity|].
      split; [simpl; lia|]. split; [|split].
      * intros pre id post H.
        destruct (Hhead _ _ _ H) as [(-> & -> & ->)|(pre' & -> & Hrest & ->)].
        -- now left.
        -- specialize (Hall _ _ _ Hrest).
           destruct (fst (mergeComponent args id _)) as [[r|r]|e];
             [assumption|now right|now right].
      * intros f [<-|Hf].
        -- exists [], id0, rest. cbn [fold_left app]. rewrite Hstep. simpl. auto.
        -- destruct (Hfailed f Hf) as (pre' & id & post & Hrest & Hid & Hm).
           destruct (Htail _ _ _ Hrest) as [Hb Hs].
           exists (id0 :: pre'), id, post. rewrite Hs. auto.
      * intros r Hr. destruct (Hmerged r Hr) as (pre' & id & post & Hrest & Hm).
        destruct (Htail _ _ _ Hrest) as [Hb Hs].
        exists (id0 :: pre'), id, post. rewrite Hs. auto.
    + eexists components, (_ :: failed). split; [reflexivity|].
      split; [simpl; lia|]. split; [|split].
      * intros pre id post H.
        destruct (Hhead _ _ _ H) as [(-> & -> & ->)|(pre' & -> & Hrest & ->)].
        -- now left.
        -- specialize (Hall _ _ _ Hrest).
           destruct (fst (mergeComponent args id _)) as [[r|r]|e'];
             [assumption|now right|now right].
      * intros f [<-|Hf].
        -- exists [], id0, rest. cbn [fold_left app]. rewrite Hstep. simpl. auto.
        -- destruct (Hfailed f Hf) as (pre' & id & post & Hrest & Hid & Hm).
           destruct (Htail _ _ _ Hrest) as [Hb Hs].
           exists (id0 :: pre'), id, post. rewrite Hs. auto.
      * intros r Hr. destruct (Hmerged r Hr) as (pre' & id & post & Hrest & Hm).
        destruct (Htail _ _ _ Hrest) as [Hb Hs].
        exists (id0 :: pre'), id, post. rewrite Hs. auto.
Qed.

(** C1.  The merge engine on a batch, and the merge command on it.
    Whatever the merges of the single components do, the engine returns
    a result and throws nothing, and the store is the one that the
    components leave in turn.  Every component of the batch has its
    entry in the result: a merged one in [components]; one that had
    nothing to merge in [failedComponents] with the reason as
    [failureMessage] and [unchangedLegitimately] true; one whose merge
    threw in [failedComponents] with the message of the error and
    [unchangedLegitimately] false.  There is no other entry: the sizes
    add up to the batch and every entry comes from such a component.
    The merge command, its flags accepted, does not throw on such a
    result either: it prints the merged components, the failures and
    the summary, whose totals count the three kinds. *)
Theorem merge_collects_failures :
  (forall args s,
     let batch := batchOf args s in
     let after := fun pre : list BitId =>
                    fold_left (fun st id => snd (mergeComponent args id st)) pre s in
     exists r components failed,
       MergeEngine.specMerge args s = (Ok r, after batch) /\
       ApplyVersionResults.components r = Some components /\
       ApplyVersionResults.failedComponents r = Some failed /\
       length components + length failed = length batch /\
       (forall pre id post,
          batch = pre ++ id :: post ->
          match fst (mergeComponent args id (after pre)) with
          | Ok (Applied result) => In result components
          | Ok (NothingToMerge reason) =>
              In {| FailedComponent.id := id;
                    FailedComponent.failureMessage := reason;
                    FailedComponent.unchangedLegitimately := true |} failed
          | Throw e =>
              In {| FailedComponent.id := id;
                    FailedComponent.failureMessage := exn_message e;
                    FailedComponent.unchangedLegitimately := false |} failed
          end) /\
       (forall f,
          In f failed ->
          exists pre id post,
            batch = pre ++ id :: post /\
            FailedComponent.id f = id /\
            match fst (mergeComponent args id (after pre)) with
            | Ok (Applied _) => False
            | Ok (NothingToMerge reason) =>
                FailedComponent.failureMessage f = reason /\
                FailedComponent.unchangedLegitimately f = true
            | Throw e =>
                FailedComponent.failureMessage f = exn_message e /\
                FailedComponent.unchangedLegitimately f = false
            end) /\
       (forall result,
          In result components ->
          exists pre id post,
            batch = pre ++ id :: post /\
            fst (mergeComponent args id (after pre)) = Ok (Applied result))) /\
  (forall ids o w strategy,
     getMergeStrategy (Js.default (Js.Boolean false) (MergeFlags.ours o))
                      (Js.default (Js.Boolean false) (MergeFlags.theirs o))
                      (Js.default (Js.Boolean false) (MergeFlags.manual o))
     = Ok strategy ->
     Js.truthy (MergeFlags.abort o) && Js.truthy (MergeFlags.resolve o) = false ->
     Js.truthy (MergeFlags.noSnap o) && Js.truthy (MergeFlags.message o) = false ->
     exists args r components failed s',
       MergeArgs.ids args = match ids with Some l => l | None => [] end /\
       MergeEngine.specMerge args (Eff.store w) = (Ok r, s') /\
       ApplyVersionResults.components r = Some components /\
       ApplyVersionResults.failedComponents r = Some failed /\
       let shown :=
         MergeCmd.reported r (Js.default (Js.Boolean false) (MergeFlags.verbose o)) in
       MergeCmd.report (merging := MergeEngine.specMerging) ids o w
       = (Ok (MergeReport.getSuccessOutput shown +++
              MergeReport.getFailureOutput shown +++
              nl +++ nl +++ chalk_bold_underline "Merge Summary" +++
              nl +++ "Total Merged: " +++
              chalk_bold (Js.nat_to_string (length components)) +++
              nl +++ "Total Unchanged: " +++
              chalk_bold (Js.nat_to_string
                            (length (filter FailedComponent.unchangedLegitimately failed))) +++
              nl +++ "Total Failed: " +++
              chalk_bold (Js.nat_to_string
                            (length (filter (fun f => negb (FailedComponent.unchangedLegitimately f))
                                            failed))) +++
              nl +++ "Total Snapped: " +++ chalk_bold "0" +++
              nl +++ "Total Removed: " +++ chalk_bold "0"),
          {| Eff.trace := Eff.trace w ++ [MergeInvoked args]; Eff.store := s' |})).
Proof.
  split.
  - intros args s batch after.
    destruct (mergeBatch_spec args batch s)
      as (components & failed & Hrun & Hlen & Hall & Hfailed & Hmerged).
    unfold MergeEngine.specMerge. fold batch. rewrite Hrun.
    eexists _, components, failed.
    split; [reflexivity|]. split; [reflexivity|]. split; [reflexivity|].
    split; [exact Hlen|]. split; [exact Hall|]. split; [exact Hfailed|exact Hmerged].
  - intros ids o w strategy Hstrategy Habort HnoSnap.
    unfold MergeCmd.report, Eff.bind, Eff.lift, Eff.call. cbv zeta.
    rewrite Hstrategy, !TagFacts.truthy_default_false, Habort, HnoSnap.
    match goal with
    | |- context [merge ?a] => exists a
    end.
    cbn [merge MergeEngine.specMerging]. unfold MergeEngine.specMerge.
    match goal with
    | |- context [MergeEngine.mergeBatch ?a ?b ?st] =>
        destruct (MergeEngine.mergeBatch a b st) as [[components failed] s']
    end.
    eexists _, components, failed, s'.
    split; [reflexivity|]. split; [reflexivity|]. split; [reflexivity|].
    split; [reflexivity|].
    cbn [ApplyVersionResults.resolvedComponents ApplyVersionResults.abortedComponents].
    unfold Eff.ret. f_equal. f_equal.
    unfold MergeReport.mergeReport.
    assert (Hconflict :
              forall shown : ApplyVersionResults.t,
                ApplyVersionResults.leftUnresolvedConflicts shown = false ->
                MergeReport.getConflictSummary shown = "").
    { intros shown Hshown. unfold MergeReport.getConflictSummary. rewrite Hshown.
      now destruct (ApplyVersionResults.components shown) as [[|c cs]|]. }
    rewrite Hconflict by reflexivity.
    reflexivity.
Qed.

End MergeEngineFacts.
End MergeEngineFacts.

(** ** The properties on the small workspace *)

Module Witnesses.

(** [bit tag --patch --minor] *)
Lemma tag_rejects_several_bump_flags_witness :
  let o := TagFlags.of_object [("patch", Js.Boolean true); ("minor", Js.Boolean true)] in
  1 < length (TagCmd.releaseFlags (TagFlags.patch o) (TagFlags.minor o)
                (TagFlags.major o) (TagFlags.preRelease o)) /\
  exists msg msgs,
    TagCmd.report (host := Demo.host) (snapping := Demo.snapping) (chalk := Demo.chalk)
      None o Demo.tag_world
    = (Throw (BitError msg), TagCmd.warned Demo.tag_world msgs).
Proof.
  intros o. split.
  - vm_compute. lia.
  - apply (TagFacts.tag_rejects_several_bump_flags
             (host := Demo.host) (snapping := Demo.snapping) (chalk := Demo.chalk)
             None o Demo.tag_world).
    vm_compute. lia.
Defined.

(** [bit tag --increment huge] and [bit tag --increment minor --major] *)
Lemma tag_release_type_validated_witness :
  (exists msg msgs,
     TagCmd.report (host := Demo.host) (snapping := Demo.snapping) (chalk := Demo.chalk)
       None (TagFlags.of_object [("increment", Js.Str "huge")]) Demo.tag_world
     = (Throw (BitError msg), TagCmd.warned Demo.tag_world msgs)) /\
  TagCmd.getReleaseType (Js.Str "minor") (Js.Boolean true) Js.Undefined Js.Undefined
    Js.Undefined = Ok (Js.Str "minor").
Proof.
  split.
  - apply (TagFacts.tag_release_type_validated
             (host := Demo.host) (snapping := Demo.snapping) (chalk := Demo.chalk)
             None (TagFlags.of_object [("increment", Js.Str "huge")]) Demo.tag_world "huge");
      [reflexivity|discriminate|].
    simpl. intuition discriminate.
  - apply (TagFacts.tag_release_type_validated
             (host := Demo.host) (snapping := Demo.snapping) (chalk := Demo.chalk)
             None
             (TagFlags.of_object [("increment", Js.Str "minor"); ("major", Js.Boolean true)])
             Demo.tag_world "minor");
      [reflexivity|discriminate|].
    simpl. tauto.
Defined.

(** C7 as stated fails at the empty string, [bit tag --increment ''],
    the flags object [{ increment: '' }]: the empty string is not
    one of [RELEASE_TYPES], and yet nothing is thrown; the engine is
    called with the default release type and the component is tagged. *)
Lemma tag_empty_increment_accepted :
  let o := TagFlags.of_object [("increment", Js.Str "")] in
  TagFlags.increment o = Js.Str "" /\
  ~ In "" RELEASE_TYPES /\
  exists params text w',
    TagCmd.report (host := Demo.host) (snapping := Demo.snapping) (chalk := Demo.chalk)
      None o Demo.edited_world
    = (Ok text, w') /\
    Eff.trace w' = [ConsoleWarning TagCmd.msg_message_mandatory; TagInvoked params] /\
    TagParams.releaseType params = Js.Str "patch".
Proof.
  intros o. split; [reflexivity|]. split.
  - simpl. intuition discriminate.
  - eexists _, _, _. split; [vm_compute; reflexivity|]. split; reflexivity.
Qed.

(** [bit tag ui/button --increment minor --major --scope 1.2.0 --force] *)
Lemma tag_flags_resolved_witness :
  let o := TagFlags.of_object
             [("increment", Js.Str "minor"); ("major", Js.Boolean true);
              ("scope", Js.Str "1.2.0"); ("force", Js.Boolean true)] in
  exists params,
    fst (TagCmd.preflight (host := Demo.host) (Some ["ui/button"]) o Demo.tag_world)
    = Ok params /\
    TagParams.releaseType params = Js.Str "minor" /\
    TagParams.version params = Js.Str "1.2.0" /\
    TagParams.unmodified params = Js.Boolean true.
Proof.
  intros o. eexists. split; [reflexivity|].
  match goal with
  | |- TagParams.releaseType ?p = _ /\ _ =>
      destruct (TagFacts.tag_flags_resolved
                  (host := Demo.host) (snapping := Demo.snapping) (chalk := Demo.chalk)
                  (Some ["ui/button"]) o Demo.tag_world p eq_refl)
        as (Hinc & _ & _ & Hscope & _ & _ & Hunmod & _)
  end.
  split; [exact (Hinc eq_refl)|].
  split; [apply (Hscope "1.2.0"); [reflexivity|discriminate]|].
  exact (Hunmod eq_refl).
Defined.

(** [bit tag -m "no changes"] in a workspace without pending changes *)
Lemma nothing_to_tag_witness :
  let o := TagFlags.of_object [("message", Js.Str "no changes")] in
  exists params,
    fst (TagCmd.preflight (host := Demo.host) None o Demo.tag_world) = Ok params /\
    Js.truthy (TagParams.unmodified params) = false /\
    fst (TagCmd.report (host := Demo.host) (snapping := Demo.snapping) (chalk := Demo.chalk)
           None o Demo.tag_world)
    = Ok "nothing to tag".
Proof.
  intros o. eexists. split; [reflexivity|]. split; [reflexivity|].
  match goal with
  | |- fst (TagCmd.report None o _) = _ =>
      destruct (TagEngineFacts.nothing_to_tag
                  (host := Demo.host) (workspace := Demo.workspace) (chalk := Demo.chalk)
                  None o Demo.tag_world _ eq_refl eq_refl)
        as (_ & _ & msgs & Hreport)
  end.
  - simpl. intros c [<-|[<-|[]]]; reflexivity.
  - unfold Demo.snapping. rewrite Hreport. reflexivity.
Defined.

(** [bit merge --abort --resolve] *)
Lemma merge_rejects_abort_with_resolve_witness :
  let o := MergeFlags.of_object [("abort", Js.Boolean true); ("resolve", Js.Boolean true)] in
  exists e,
    MergeCmd.report (host := Demo.host) (merging := Demo.merging) (chalk := Demo.chalk)
      None o Demo.merge_world
    = (Throw e, Demo.merge_world) /\
    e = BitError MergeCmd.msg_abort_resolve.
Proof.
  intros o.
  destruct (MergeFacts.merge_rejects_abort_with_resolve
              (host := Demo.host) (merging := Demo.merging) (chalk := Demo.chalk)
              None o Demo.merge_world eq_refl eq_refl) as (e & Hreport & He).
  exists e. split; [exact Hreport|]. apply (He strategy_manual). reflexivity.
Defined.

(** [bit merge --no-snap -m "merged"] *)
Lemma merge_rejects_nosnap_with_message_witness :
  let o := MergeFlags.of_object [("noSnap", Js.Boolean true); ("message", Js.Str "merged")] in
  exists e,
    MergeCmd.report (host := Demo.host) (merging := Demo.merging) (chalk := Demo.chalk)
      None o Demo.merge_world
    = (Throw e, Demo.merge_world) /\
    e = BitError MergeCmd.msg_nosnap_message.
Proof.
  intros o.
  destruct (MergeFacts.merge_rejects_nosnap_with_message
              (host := Demo.host) (merging := Demo.merging) (chalk := Demo.chalk)
              None o Demo.merge_world eq_refl eq_refl) as (e & Hreport & He).
  exists e. split; [exact Hreport|]. apply (He strategy_manual); reflexivity.
Defined.

(** [bit merge --ours --theirs] and [bit merge ui/button] *)
Lemma merge_strategy_exclusive_default_manual_witness :
  (exists msg,
     MergeCmd.report (host := Demo.host) (merging := Demo.merging) (chalk := Demo.chalk)
       None
       (MergeFlags.of_object [("ours", Js.Boolean true); ("theirs", Js.Boolean true)])
       Demo.merge_world
     = (Throw (BitError msg), Demo.merge_world)) /\
  (exists args,
     MergeArgs.mergeStrategy args = strategy_manual /\
     Eff.trace (snd (MergeCmd.report (host := Demo.host) (merging := Demo.merging)
                       (chalk := Demo.chalk)
                       (Some ["ui/button"]) (MergeFlags.of_object []) Demo.merge_world))
     = [MergeInvoked args]).
Proof.
  split.
  - destruct (MergeStrategyFacts.merge_strategy_exclusive_default_manual
                (host := Demo.host) (merging := Demo.merging) (chalk := Demo.chalk)
                None
                (MergeFlags.of_object [("ours", Js.Boolean true); ("theirs", Js.Boolean true)])
                Demo.merge_world) as (Hmany & _ & _).
    destruct Hmany as (msg & _ & Hreport); [vm_compute; lia|].
    exists msg. exact Hreport.
  - destruct (MergeStrategyFacts.merge_strategy_exclusive_default_manual
                (host := Demo.host) (merging := Demo.merging) (chalk := Demo.chalk)
                (Some ["ui/button"]) (MergeFlags.of_object []) Demo.merge_world)
      as (_ & Hnone & _).
    destruct (Hnone eq_refl) as (_ & Hcall).
    exact (Hcall eq_refl eq_refl).
Defined.

(** One failed component, legitimately unchanged, reported without
    [verbose]: the line that counts it, and the summary. *)
Lemma merge_report_legitimate_failures_witness :
  MergeReport.getFailureOutput (host := Demo.host) (chalk := Demo.chalk)
    (Demo.failed_result false)
  = nl +++ "the merge has been skipped on 1 component(s) legitimately" +++ nl +++
    "(use --verbose to list them next time)" /\
  MergeReport.getSummary (host := Demo.host) (chalk := Demo.chalk) (Demo.failed_result false)
  = nl +++ nl +++ "Merge Summary" +++ nl +++ "Total Merged: 0" +++ nl +++
    "Total Unchanged: 1" +++ nl +++ "Total Failed: 0" +++ nl +++ "Total Snapped: 0" +++ nl +++
    "Total Removed: 0".
Proof.
  destruct (MergeReportFacts.merge_report_legitimate_failures
              (host := Demo.host) (chalk := Demo.chalk)
              (Demo.failed_result false) [Demo.legitimate] eq_refl)
    as (Hquiet & _ & Hsummary & _); [discriminate|].
  destruct (Hquiet eq_refl) as (_ & _ & Hcount).
  split; [exact (Hcount eq_refl)|exact Hsummary].
Defined.

(** [bit merge ui/button ui/card ui/menu]: one component is merged, one
    has nothing to merge and the merge of the third throws; the command
    prints its report. *)
Lemma merge_collects_failures_witness :
  exists text w',
    MergeCmd.report (host := Demo.host) (merging := Demo.merging) (chalk := Demo.chalk)
      (Some ["ui/button"; "ui/card"; "ui/menu"]) (MergeFlags.of_object []) Demo.merge_world
    = (Ok text, w').
Proof.
  destruct (proj2 (MergeEngineFacts.merge_collects_failures
                     (host := Demo.host) (mv := specMergeVersion) (merger := Demo.merger)
                     (chalk := Demo.chalk))
              (Some ["ui/button"; "ui/card"; "ui/menu"]) (MergeFlags.of_object [])
              Demo.merge_world strategy_manual eq_refl eq_refl eq_refl)
    as (args & r & components & failed & s' & _ & _ & _ & _ & Hreport).
  eexists _, _. exact Hreport.
Defined.

End Witnesses.

(** * Further properties *)

(** ** The checks and the warnings of the tag command *)

Module TagChecks.
Section TagChecks.
Context `{host : Host} {snapping : SnappingMain} {chalk : Chalk}.

(** The removed flag [--ignore-unresolved-dependencies] is refused
    whatever its boolean value, [false] included, and before anything
    else happens: no warning is printed, the engine is not called. *)
Theorem tag_removed_flag_refused_first patterns o w :
  Js.is_boolean (TagFlags.ignoreUnresolvedDependencies o) = true ->
  TagCmd.report patterns o w = (Throw (BitError TagCmd.msg_ignore_unresolved), w).
Proof.
  intros H. apply TagFacts.report_preflight_throw.
  unfold TagCmd.preflight. cbv zeta. now rewrite H.
Qed.

(** A bare [--ignore-issues], without the list of issues, is refused
    before any warning is printed and before the engine is called. *)
Theorem tag_bare_ignore_issues_refused patterns o w :
  Js.is_boolean (TagFlags.ignoreUnresolvedDependencies o) = false ->
  TagFlags.ignoreIssues o = Js.Boolean true ->
  TagCmd.report patterns o w = (Throw (BitError TagCmd.msg_ignore_issues), w).
Proof.
  intros H1 H2. apply TagFacts.report_preflight_throw.
  unfold TagCmd.preflight. cbv zeta. now rewrite H1, H2.
Qed.

(** The warnings of an invocation that passes the first two checks are
    the deprecation warnings of its flags, in the order of the source;
    they are printed whether or not a later check fails. *)
Theorem tag_warnings patterns o w :
  Js.is_boolean (TagFlags.ignoreUnresolvedDependencies o) = false ->
  Js.truthy (TagFlags.ignoreIssues o) && Js.is_boolean (TagFlags.ignoreIssues o) = false ->
  snd (TagCmd.preflight patterns o w)
  = TagCmd.warned w (TagOutput.deprecations o).
Proof.
  intros H1 H2.
  assert (Hgen : forall msgs0,
             snd (TagCmd.preflight patterns o (TagCmd.warned w msgs0))
             = TagCmd.warned w (msgs0 ++ TagOutput.deprecations o)).
  { intros msgs0. unfold TagCmd.preflight. cbv zeta. rewrite H1, H2.
    unfold Eff.bind. rewrite !TagFacts.when_warned.
    rewrite !TagFacts.truthy_default_false.
    unfold TagOutput.deprecations. rewrite <- !app_assoc.
    repeat match goal with
           | |- context [if ?b then Eff.throw _ else _] => destruct b
           end;
      try reflexivity.
    unfold Eff.lift. now destruct (TagCmd.getReleaseType _ _ _ _ _). }
  specialize (Hgen []). now rewrite TagFacts.warned_nil in Hgen.
Qed.

(** Whatever the flags, [report] either fails a pre-flight check, with a
    [BitError], the store untouched and the engine not called, or calls
    the engine exactly once, after the warnings, with the parameters it
    has resolved, and leaves the store as the engine left it. *)
Theorem tag_engine_called_at_most_once patterns o w :
  exists msgs,
    (exists msg,
       TagCmd.report patterns o w = (Throw (BitError msg), TagCmd.warned w msgs)) \/
    (exists params,
       fst (TagCmd.preflight patterns o w) = Ok params /\
       Eff.trace (snd (TagCmd.report patterns o w))
       = Eff.trace w ++ map ConsoleWarning msgs ++ [TagInvoked params] /\
       Eff.store (snd (TagCmd.report patterns o w)) = snd (tag params (Eff.store w))).
Proof.
  destruct (TagFacts.preflight_split patterns o w) as [msgs Hw]. exists msgs.
  destruct (fst (TagCmd.preflight patterns o w)) as [params|e] eqn:Hr.
  - right. exists params. split; [reflexivity|].
    rewrite (TagFacts.report_preflight_ok _ _ _ _ _ Hw). simpl.
    destruct (tag params (Eff.store w)) as [[[results|]|e] st]; simpl;
      try destruct (TagCmd.renderResults results); simpl;
      now rewrite app_assoc.
  - left. destruct (TagFacts.preflight_throws _ _ _ _ Hr) as [msg ->].
    exists msg. now apply TagFacts.report_preflight_throw.
Qed.

(** When several checks fail, the error is the one of the first check
    that fails, in the order of the source: the removed flag, the bare
    [--ignore-issues], the misplaced [--prerelease-id], more than one
    release flag, and last the invalid increment level, whose message
    quotes the level. *)
Theorem tag_first_failing_check patterns o w e :
  fst (TagCmd.preflight patterns o w) = Throw e ->
  e = BitError
        (if Js.is_boolean (TagFlags.ignoreUnresolvedDependencies o)
         then TagCmd.msg_ignore_unresolved
         else if Js.truthy (TagFlags.ignoreIssues o) && Js.is_boolean (TagFlags.ignoreIssues o)
         then TagCmd.msg_ignore_issues
         else if TagCmd.prereleaseIdMisused (TagFlags.prereleaseId o) (TagFlags.increment o)
         then TagCmd.msg_prerelease_id
         else if Nat.ltb 1 (length (TagCmd.releaseFlags (TagFlags.patch o) (TagFlags.minor o)
                                      (TagFlags.major o) (TagFlags.preRelease o)))
         then TagCmd.msg_one_release_flag
         else TagCmd.msg_invalid_increment (TagFlags.increment o)).
Proof.
  unfold TagCmd.preflight. cbv zeta.
  destruct (Js.is_boolean _); [simpl; now intros [= <-]|].
  destruct (_ && _); [simpl; now intros [= <-]|].
  unfold Eff.bind, Eff.when, TagCmd.consoleWarning, Eff.emit, Eff.ret.
  destruct (TagCmd.prereleaseIdMisused _ _);
    [repeat match goal with
            | |- context [if ?b then (fun _ => _) else _] => destruct b
            end; simpl; now intros [= <-]|].
  destruct (Nat.ltb 1 _);
    [repeat match goal with
            | |- context [if ?b then (fun _ => _) else _] => destruct b
            end; simpl; now intros [= <-]|].
  unfold Eff.lift, TagCmd.getReleaseType.
  repeat match goal with
         | |- context [if ?b then (fun _ => _) else _] => destruct b
         end;
    repeat match goal with
           | |- context [if ?b then _ else _] => destruct b
           end;
    simpl; try discriminate; now intros [= <-].
Qed.

End TagChecks.
End TagChecks.

(** ** The release type and the pre-release identifier *)

Module TagRelease.
Section TagRelease.
Context `{host : Host} {snapping : SnappingMain} {chalk : Chalk}.

Lemma getReleaseType_valid increment major minor patch preRelease r :
  TagCmd.getReleaseType increment major minor patch preRelease = Ok r ->
  exists s, r = Js.Str s /\ In s RELEASE_TYPES.
Proof.
  unfold TagCmd.getReleaseType.
  destruct (Js.truthy increment).
  - destruct (Js.includes RELEASE_TYPES increment) eqn:Hin; simpl; [|discriminate].
    intros [= <-]. destruct increment as [| |s|]; try discriminate.
    exists s. split; [reflexivity|].
    unfold Js.includes in Hin. apply existsb_exists in Hin. destruct Hin as (x & Hx & Hsx).
    apply String.eqb_eq in Hsx. now subst x.
  - destruct (Js.truthy major), (Js.truthy minor), (Js.truthy patch), (Js.truthy preRelease);
      intros [= <-]; eexists; (split; [reflexivity|]); simpl; tauto.
Qed.

(** The engine is never asked for a release type outside
    [RELEASE_TYPES]: the release type of the parameters that pass the
    pre-flight part is one of the seven levels. *)
Theorem tag_release_type_always_valid patterns o w params :
  fst (TagCmd.preflight patterns o w) = Ok params ->
  exists s, TagParams.releaseType params = Js.Str s /\ In s RELEASE_TYPES.
Proof.
  intros Hok. destruct (TagFacts.preflight_ok _ _ _ _ Hok) as (_ & _ & Hrt & _).
  exact (getReleaseType_valid _ _ _ _ _ _ Hrt).
Qed.

(** When [--prerelease-id] is given and the pre-flight part passes, the
    release type is one of the four pre-release levels and the
    identifier handed to the engine is the one of [--prerelease-id],
    also when [--pre-release] carries another identifier. *)
Theorem tag_prerelease_id_with_prerelease_level patterns o w params :
  fst (TagCmd.preflight patterns o w) = Ok params ->
  Js.truthy (TagFlags.prereleaseId o) = true ->
  (exists s, TagParams.releaseType params = Js.Str s /\
             In s ["premajor"; "preminor"; "prepatch"; "prerelease"]) /\
  TagParams.preReleaseId params = TagFlags.prereleaseId o.
Proof.
  intros Hok Hid.
  destruct (TagFacts.preflight_ok _ _ _ _ Hok) as (Hmis & _ & Hrt & Hpre & _).
  split.
  - destruct (getReleaseType_valid _ _ _ _ _ _ Hrt) as (s & Hs & Hin).
    exists s. split; [assumption|].
    unfold TagCmd.prereleaseIdMisused in Hmis. rewrite Hid in Hmis. simpl in Hmis.
    unfold TagCmd.getReleaseType in Hrt.
    destruct (Js.truthy (TagFlags.increment o)); [|discriminate].
    destruct (Js.includes RELEASE_TYPES (TagFlags.increment o)); [|discriminate].
    simpl in Hrt. injection Hrt as Hrt. rewrite Hs in Hrt. rewrite Hrt in Hmis.
    simpl in Hmis.
    simpl in Hin.
    destruct Hin as [<-|[<-|[<-|[<-|[<-|[<-|[<-|[]]]]]]]]; simpl in *;
      try discriminate; tauto.
  - rewrite Hpre. unfold TagCmd.getPreReleaseId. now rewrite Hid.
Qed.

Lemma report_of_preflight patterns o o' w :
  TagCmd.preflight patterns o w = TagCmd.preflight patterns o' w ->
  TagCmd.report patterns o w = TagCmd.report patterns o' w.
Proof.
  intros H. unfold TagCmd.report, Eff.bind. now rewrite H.
Qed.

Lemma preflight_bump_congruence patterns o w
  patch minor major preRelease increment prereleaseId
  patch' minor' major' preRelease' increment' prereleaseId' :
  TagCmd.prereleaseIdMisused prereleaseId increment
  = TagCmd.prereleaseIdMisused prereleaseId' increment' ->
  Nat.ltb 1 (length (TagCmd.releaseFlags patch minor major preRelease))
  = Nat.ltb 1 (length (TagCmd.releaseFlags patch' minor' major' preRelease')) ->
  (TagCmd.prereleaseIdMisused prereleaseId increment = false ->
   Nat.ltb 1 (length (TagCmd.releaseFlags patch minor major preRelease)) = false ->
   TagCmd.getReleaseType increment major minor patch preRelease
   = TagCmd.getReleaseType increment' major' minor' patch' preRelease' /\
   TagCmd.getPreReleaseId prereleaseId preRelease
   = TagCmd.getPreReleaseId prereleaseId' preRelease') ->
  TagCmd.preflight patterns
    (TagSugar.with_bump patch minor major preRelease increment prereleaseId o) w
  = TagCmd.preflight patterns
      (TagSugar.with_bump patch' minor' major' preRelease' increment' prereleaseId' o) w.
Proof.
  intros Hmis Hflags Hrest.
  unfold TagCmd.preflight, TagSugar.with_bump. cbv zeta.
  cbn [TagFlags.message TagFlags.ver TagFlags.all TagFlags.editor TagFlags.snapped
       TagFlags.unmerged TagFlags.patch TagFlags.minor TagFlags.major TagFlags.preRelease
       TagFlags.increment TagFlags.prereleaseId TagFlags.force
       TagFlags.ignoreUnresolvedDependencies TagFlags.ignoreIssues
       TagFlags.ignoreNewestVersion TagFlags.skipTests TagFlags.skipAutoTag TagFlags.scope
       TagFlags.unmodified TagFlags.build TagFlags.soft TagFlags.persist
       TagFlags.disableDeployPipeline TagFlags.disableTagPipeline TagFlags.forceDeploy
       TagFlags.incrementBy].
  rewrite <- Hmis, <- Hflags.
  destruct (TagCmd.prereleaseIdMisused prereleaseId increment);
    [reflexivity|].
  destruct (Nat.ltb 1 (length (TagCmd.releaseFlags patch minor major preRelease)));
    [reflexivity|].
  destruct (Hrest eq_refl eq_refl) as [<- <-]. reflexivity.
Qed.

(** [--patch], [--minor] and [--major] are sugar for [--increment] with
    the same level, as the help says: when no other release flag is
    given, the command behaves the same on the two command lines:
    same warnings, same error, same call of the engine. *)
Theorem tag_level_flags_are_sugar patterns o w :
  let u := Js.Undefined in
  let t := Js.Boolean true in
  let id := TagFlags.prereleaseId o in
  TagCmd.report patterns (TagSugar.with_bump t u u u u id o) w
  = TagCmd.report patterns (TagSugar.with_bump u u u u (Js.Str "patch") id o) w /\
  TagCmd.report patterns (TagSugar.with_bump u t u u u id o) w
  = TagCmd.report patterns (TagSugar.with_bump u u u u (Js.Str "minor") id o) w /\
  TagCmd.report patterns (TagSugar.with_bump u u t u u id o) w
  = TagCmd.report patterns (TagSugar.with_bump u u u u (Js.Str "major") id o) w.
Proof.
  intros u t id.
  repeat split; apply report_of_preflight, preflight_bump_congruence;
    try reflexivity;
    unfold TagCmd.prereleaseIdMisused; simpl;
    destruct (Js.truthy id); try reflexivity; try discriminate;
    intros _ _; split; try reflexivity;
    unfold TagCmd.getPreReleaseId; simpl; destruct (Js.truthy id); reflexivity.
Qed.

(** [--pre-release <identifier>] is sugar for [--increment prerelease]
    with [--prerelease-id <identifier>], as the help says, when no
    other release flag is given. *)
Theorem tag_pre_release_is_sugar patterns o w identifier :
  identifier <> "" ->
  let u := Js.Undefined in
  TagCmd.report patterns (TagSugar.with_bump u u u (Js.Str identifier) u u o) w
  = TagCmd.report patterns
      (TagSugar.with_bump u u u u (Js.Str "prerelease") (Js.Str identifier) o) w.
Proof.
  intros Hid u. apply String.eqb_neq in Hid.
  apply report_of_preflight, preflight_bump_congruence.
  - unfold TagCmd.prereleaseIdMisused. simpl. now rewrite Hid.
  - unfold TagCmd.releaseFlags. simpl. now rewrite Hid.
  - intros _ _. unfold TagCmd.getReleaseType, TagCmd.getPreReleaseId. simpl.
    now rewrite Hid.
Qed.

End TagRelease.
End TagRelease.

(** ** The options that the tag command hands on *)

Module TagOptions.
Section TagOptions.
Context `{host : Host} {snapping : SnappingMain} {chalk : Chalk}.

Lemma truthy_or a b : Js.truthy (Js.or a b) = Js.truthy a || Js.truthy b.
Proof.
  unfold Js.or. destruct (Js.truthy a) eqn:Ha; [now rewrite Ha|reflexivity].
Qed.

(** The options that the command does not interpret reach the engine as
    they were given, and an option that is absent reaches it as its
    default: [false] for the flags, the empty string for the message
    and the editor, [1] for [incrementBy]; [ignoreIssues] and [build]
    have no default. *)
Lemma tag_options_handed_on patterns o w params :
  fst (TagCmd.preflight patterns o w) = Ok params ->
  TagParams.message params = Js.default (Js.Str "") (TagFlags.message o) /\
  TagParams.editor params = Js.default (Js.Str "") (TagFlags.editor o) /\
  TagParams.snapped params = Js.default (Js.Boolean false) (TagFlags.snapped o) /\
  TagParams.unmerged params = Js.default (Js.Boolean false) (TagFlags.unmerged o) /\
  TagParams.ignoreIssues params = TagFlags.ignoreIssues o /\
  TagParams.ignoreNewestVersion params
  = Js.default (Js.Boolean false) (TagFlags.ignoreNewestVersion o) /\
  TagParams.skipTests params = Js.default (Js.Boolean false) (TagFlags.skipTests o) /\
  TagParams.skipAutoTag params = Js.default (Js.Boolean false) (TagFlags.skipAutoTag o) /\
  TagParams.build params = TagFlags.build o /\
  TagParams.soft params = Js.default (Js.Boolean false) (TagFlags.soft o) /\
  TagParams.persist params = Js.default (Js.Boolean false) (TagFlags.persist o) /\
  TagParams.forceDeploy params = Js.default (Js.Boolean false) (TagFlags.forceDeploy o) /\
  TagParams.incrementBy params = Js.default (Js.Num 1) (TagFlags.incrementBy o) /\
  TagParams.disableTagAndSnapPipelines params
  = Js.or (Js.default (Js.Boolean false) (TagFlags.disableTagPipeline o))
          (Js.default (Js.Boolean false) (TagFlags.disableDeployPipeline o)).
Proof.
  unfold TagCmd.preflight. cbv zeta.
  destruct (Js.is_boolean _); [discriminate|].
  destruct (_ && _); [discriminate|].
  unfold Eff.bind, Eff.when, TagCmd.consoleWarning, Eff.emit, Eff.ret.
  repeat match goal with
         | |- context [if ?b then (fun _ => _) else _] => destruct b
         end;
    repeat match goal with
           | |- context [if ?b then Eff.throw _ else _] => destruct b
           end;
    simpl; try discriminate;
    unfold Eff.lift;
    destruct (TagCmd.getReleaseType _ _ _ _ _);
    simpl; try discriminate; intros [= <-]; simpl;
    repeat split; reflexivity.
Qed.

(** The deprecated [--disable-deploy-pipeline] does what
    [--disable-tag-pipeline] does: the pipelines are disabled for the
    engine exactly when one of the two flags is set. *)
Theorem tag_disable_pipeline_alias patterns o w params :
  fst (TagCmd.preflight patterns o w) = Ok params ->
  Js.truthy (TagParams.disableTagAndSnapPipelines params)
  = Js.truthy (TagFlags.disableTagPipeline o)
    || Js.truthy (TagFlags.disableDeployPipeline o).
Proof.
  intros Hok.
  destruct (tag_options_handed_on _ _ _ _ Hok)
    as (_ & _ & _ & _ & _ & _ & _ & _ & _ & _ & _ & _ & _ & Hdis).
  now rewrite Hdis, truthy_or, !TagFacts.truthy_default_false.
Qed.

End TagOptions.
End TagOptions.

(** ** The text printed for a tag result *)

Module TagRender.
Section TagRender.
Context `{host : Host} {chalk : Chalk}.

Lemma filter_partition_length {A} (p : A -> bool) (l : list A) :
  length (filter p l) + length (filter (fun x => negb (p x)) l) = length l.
Proof.
  induction l as [|x l IH]; [reflexivity|].
  simpl. destruct (p x); simpl; lia.
Qed.

(** The tagged components are split between the new and the changed
    ones: each tagged component is in exactly one of the two lists, a
    new component in [addedComponents] and any other in
    [changedComponents], and the sizes add up. *)
Theorem tag_added_and_changed_partition (results : TagResults) :
  length (TagOutput.addedComponents results) + length (TagOutput.changedComponents results)
  = length (taggedComponents results) /\
  forall c,
    In c (taggedComponents results) ->
    (In c (TagOutput.addedComponents results) /\
     ~ In c (TagOutput.changedComponents results) /\
     searchWithoutVersion (newComponents results) (component_id c) = true) \/
    (In c (TagOutput.changedComponents results) /\
     ~ In c (TagOutput.addedComponents results) /\
     searchWithoutVersion (newComponents results) (component_id c) = false).
Proof.
  unfold TagOutput.addedComponents, TagOutput.changedComponents. split.
  - apply filter_partition_length.
  - intros c Hc.
    destruct (searchWithoutVersion (newComponents results) (component_id c)) eqn:E.
    + left. repeat split.
      * apply filter_In. now split.
      * intros H. apply filter_In in H. rewrite E in H. now destruct H.
    + right. repeat split.
      * apply filter_In. split; [assumption|now rewrite E].
      * intros H. apply filter_In in H. rewrite E in H. now destruct H.
Qed.

Lemma outputIfExists_ok results label explanation components autoTagged :
  autoTaggedResults results = Some autoTagged ->
  exists text, TagCmd.outputIfExists results label explanation components = Ok text.
Proof.
  intros Hauto. unfold TagCmd.outputIfExists, TagCmd.outputComponents.
  destruct components; [eauto|]. rewrite Hauto. simpl. eauto.
Qed.

Lemma outputIfExists_missing results label explanation c components :
  autoTaggedResults results = None ->
  exists msg,
    TagCmd.outputIfExists results label explanation (c :: components)
    = Throw (TypeError msg).
Proof.
  intros Hauto. unfold TagCmd.outputIfExists, TagCmd.outputComponents.
  rewrite Hauto. simpl. eauto.
Qed.

(** The text of a tag result is always produced when
    [autoTaggedResults] is an array.  When it is missing, which the
    count of the first line allows for, the text is produced only if no
    component was tagged; with a tagged component the listing reads
    [autoTaggedResults.filter] and a [TypeError] is thrown. *)
Theorem tag_render_type_error (results : TagResults) :
  (forall autoTagged,
     autoTaggedResults results = Some autoTagged ->
     exists text, TagCmd.renderResults results = Ok text) /\
  (autoTaggedResults results = None ->
   taggedComponents results = [] ->
   exists text, TagCmd.renderResults results = Ok text) /\
  (autoTaggedResults results = None ->
   taggedComponents results <> [] ->
   exists msg, TagCmd.renderResults results = Throw (TypeError msg)).
Proof.
  split; [|split].
  - intros autoTagged Hauto. unfold TagCmd.renderResults. cbv zeta.
    destruct (outputIfExists_ok results "new components"
                (if isSoftTag results
                 then "set to be tagged first version for components"
                 else "first version for components")
                (TagOutput.addedComponents results) autoTagged Hauto) as [added Ha].
    destruct (outputIfExists_ok results "changed components"
                (if isSoftTag results
                 then "components that set to get a version bump"
                 else "components that got a version bump")
                (TagOutput.changedComponents results) autoTagged Hauto) as [changed Hc].
    unfold TagOutput.addedComponents in Ha. unfold TagOutput.changedComponents in Hc.
    rewrite Ha. simpl. rewrite Hc. simpl. eauto.
  - intros _ Hnone. unfold TagCmd.renderResults. cbv zeta. rewrite Hnone. simpl. eauto.
  - intros Hauto Hsome. unfold TagCmd.renderResults. cbv zeta.
    destruct (taggedComponents results) as [|c cs] eqn:Ht; [contradiction|].
    cbn [filter].
    destruct (searchWithoutVersion (newComponents results) (component_id c)); cbn [negb].
    + destruct (outputIfExists_missing results "new components"
                  (if isSoftTag results
                   then "set to be tagged first version for components"
                   else "first version for components")
                  c (filter (fun c0 => searchWithoutVersion (newComponents results)
                                         (component_id c0)) cs) Hauto) as [msg Hm].
      rewrite Hm. simpl. eauto.
    + match goal with
      | |- context [TagCmd.outputIfExists results "new components" ?e ?l] =>
          destruct (TagCmd.outputIfExists results "new components" e l) as [added|e']
                   eqn:Ha
      end.
      * destruct (outputIfExists_missing results "changed components"
                    (if isSoftTag results
                     then "components that set to get a version bump"
                     else "components that got a version bump")
                    c (filter (fun c0 => negb (searchWithoutVersion (newComponents results)
                                                 (component_id c0))) cs) Hauto) as [msg Hm].
        cbn [res_bind]. rewrite Hm. simpl. eauto.
      * simpl. unfold TagCmd.outputIfExists, TagCmd.outputComponents in Ha.
        rewrite Hauto in Ha.
        destruct (filter _ cs); simpl in Ha; [discriminate|].
        injection Ha as <-. eauto.
Qed.

End TagRender.
End TagRender.

(** ** The call of the merge engine *)

Module MergeCall.
Section MergeCall.
Context `{host : Host} `{mv : MergeVersion} {merging : MergingMain} {chalk : Chalk}.

Lemma report_text_world (o : MergeFlags.t) (result : ApplyVersionResults.t)
  (w : Eff.World MergeEvent Store) :
  let verbose := Js.default (Js.Boolean false) (MergeFlags.verbose o) in
  snd (match ApplyVersionResults.resolvedComponents result with
       | Some resolvedComponents =>
           Eff.ret
             (chalk_underline ("successfully resolved component(s)" +++ nl) +++
              chalk_green
                (Js.join nl (map (fun c => idToStringWithoutVersion (component_id c))
                                 resolvedComponents)))
       | None =>
           match ApplyVersionResults.abortedComponents result with
           | Some abortedComponents =>
               Eff.ret
                 (chalk_underline
                    ("successfully aborted the merge of the following component(s)" +++ nl) +++
                  chalk_green
                    (Js.join nl
                       (map (fun c => idToStringWithoutVersion (ApplyVersionResult.id c))
                            abortedComponents)))
           | None => Eff.ret (MergeReport.mergeReport (MergeCmd.reported result verbose))
           end
       end w) = w.
Proof.
  intros verbose.
  destruct (ApplyVersionResults.resolvedComponents result); [reflexivity|].
  now destruct (ApplyVersionResults.abortedComponents result).
Qed.

Lemma accepted_flags_call ids o w strategy :
  getMergeStrategy (Js.default (Js.Boolean false) (MergeFlags.ours o))
                   (Js.default (Js.Boolean false) (MergeFlags.theirs o))
                   (Js.default (Js.Boolean false) (MergeFlags.manual o))
  = Ok strategy ->
  Js.truthy (MergeFlags.abort o) && Js.truthy (MergeFlags.resolve o) = false ->
  Js.truthy (MergeFlags.noSnap o) && Js.truthy (MergeFlags.message o) = false ->
  exists args,
    Eff.trace (snd (MergeCmd.report ids o w)) = Eff.trace w ++ [MergeInvoked args] /\
    Eff.store (snd (MergeCmd.report ids o w)) = snd (merge args (Eff.store w)) /\
    MergeArgs.mergeStrategy args = strategy /\
    MergeArgs.ids args = match ids with Some l => l | None => [] end /\
    MergeArgs.abort args = Js.default (Js.Boolean false) (MergeFlags.abort o) /\
    MergeArgs.resolve args = Js.default (Js.Boolean false) (MergeFlags.resolve o) /\
    MergeArgs.noSnap args = Js.default (Js.Boolean false) (MergeFlags.noSnap o) /\
    MergeArgs.message args = MergeFlags.message o /\
    MergeArgs.skipDependencyInstallation args
    = Js.default (Js.Boolean false) (MergeFlags.skipDependencyInstallation o) /\
    MergeArgs.build args
    = if isFeatureEnabled BUILD_ON_CI
      then Js.Boolean (Js.truthy (MergeFlags.build o))
      else Js.Boolean true.
Proof.
  intros Hstrategy Habort HnoSnap.
  unfold MergeCmd.report, Eff.bind, Eff.lift, Eff.call. cbv zeta.
  rewrite Hstrategy, !TagFacts.truthy_default_false, Habort, HnoSnap.
  match goal with
  | |- context [merge ?a] => exists a; destruct (merge a (Eff.store w)) as [[r|e] s]
  end.
  - rewrite report_text_world. simpl. repeat split; reflexivity.
  - simpl. repeat split; reflexivity.
Qed.

(** When the flags are accepted the merge engine is called once, and
    with what the command line says: the strategy that
    [getMergeStrategy] has chosen, the ids, the flags [abort],
    [resolve], [noSnap] and [skipDependencyInstallation] (false when
    absent) and the message.  The [build] argument is the boolean of
    [--build] only when the feature [BUILD_ON_CI] is enabled; otherwise
    it is [true] whatever the flag. *)
Theorem merge_engine_call ids o w strategy :
  getMergeStrategy (Js.default (Js.Boolean false) (MergeFlags.ours o))
                   (Js.default (Js.Boolean false) (MergeFlags.theirs o))
                   (Js.default (Js.Boolean false) (MergeFlags.manual o))
  = Ok strategy ->
  Js.truthy (MergeFlags.abort o) && Js.truthy (MergeFlags.resolve o) = false ->
  Js.truthy (MergeFlags.noSnap o) && Js.truthy (MergeFlags.message o) = false ->
  exists args,
    Eff.trace (snd (MergeCmd.report ids o w)) = Eff.trace w ++ [MergeInvoked args] /\
    Eff.store (snd (MergeCmd.report ids o w)) = snd (merge args (Eff.store w)) /\
    MergeArgs.mergeStrategy args = strategy /\
    MergeArgs.ids args = match ids with Some l => l | None => [] end /\
    MergeArgs.abort args = Js.default (Js.Boolean false) (MergeFlags.abort o) /\
    MergeArgs.resolve args = Js.default (Js.Boolean false) (MergeFlags.resolve o) /\
    MergeArgs.noSnap args = Js.default (Js.Boolean false) (MergeFlags.noSnap o) /\
    MergeArgs.message args = MergeFlags.message o /\
    MergeArgs.skipDependencyInstallation args
    = Js.default (Js.Boolean false) (MergeFlags.skipDependencyInstallation o) /\
    MergeArgs.build args
    = if isFeatureEnabled BUILD_ON_CI
      then Js.Boolean (Js.truthy (MergeFlags.build o))
      else Js.Boolean true.
Proof.
  intros Hstrategy Habort HnoSnap.
  destruct (accepted_flags_call ids o w strategy Hstrategy Habort HnoSnap)
    as (args & Hcall).
  exists args. exact Hcall.
Qed.

(** Whatever the flags, the merge command either throws before the
    engine is called, the world left as it was, or calls the engine
    exactly once and leaves the store as the engine left it. *)
Theorem merge_engine_called_at_most_once ids o w :
  (exists e, MergeCmd.report ids o w = (Throw e, w)) \/
  (exists args,
     Eff.trace (snd (MergeCmd.report ids o w)) = Eff.trace w ++ [MergeInvoked args] /\
     Eff.store (snd (MergeCmd.report ids o w)) = snd (merge args (Eff.store w))).
Proof.
  destruct (getMergeStrategy (Js.default (Js.Boolean false) (MergeFlags.ours o))
              (Js.default (Js.Boolean false) (MergeFlags.theirs o))
              (Js.default (Js.Boolean false) (MergeFlags.manual o)))
    as [strategy|e] eqn:Hs.
  - destruct (Js.truthy (MergeFlags.abort o) && Js.truthy (MergeFlags.resolve o)) eqn:Ha.
    + left. unfold MergeCmd.report, Eff.bind, Eff.lift, Eff.throw. cbv zeta.
      rewrite Hs, !TagFacts.truthy_default_false, Ha. eauto.
    + destruct (Js.truthy (MergeFlags.noSnap o) && Js.truthy (MergeFlags.message o)) eqn:Hn.
      * left. unfold MergeCmd.report, Eff.bind, Eff.lift, Eff.throw. cbv zeta.
        rewrite Hs, !TagFacts.truthy_default_false, Ha, Hn. eauto.
      * right. destruct (accepted_flags_call ids o w strategy Hs Ha Hn)
          as (args & Htrace & Hstore & _).
        exists args. now split.
  - left. unfold MergeCmd.report, Eff.bind, Eff.lift, Eff.throw. cbv zeta. rewrite Hs. eauto.
Qed.

End MergeCall.
End MergeCall.

(** ** The sections of the merge report *)

Module MergeSections.
Section MergeSections.
Context `{host : Host} {chalk : Chalk}.

(** The merge command prints four sections only.  Of the result of the
    engine it passes on the merged and the failed components, the
    version and the snap results; so its report has no section for
    removed components, updated workspace dependencies, config-merge
    conflicts or files with conflicts, whatever the engine has
    returned, and its summary, which counts what was passed on, ends
    with [Total Removed: 0]. *)
Theorem merge_command_sections (result : ApplyVersionResults.t) verbose :
  let shown := MergeCmd.reported result verbose in
  MergeReport.mergeReport shown
  = MergeReport.getSuccessOutput shown +++ MergeReport.getFailureOutput shown +++
    MergeReport.getSnapsOutput shown +++ MergeReport.getSummary shown /\
  MergeReport.getConflictSummary shown = "" /\
  MergeReport.getRemovedOutput (ApplyVersionResults.removedComponents shown) = "" /\
  MergeReport.removedCount shown = "0" /\
  MergeReport.getSummary shown
  = nl +++ nl +++ chalk_bold_underline "Merge Summary" +++
    nl +++ "Total Merged: " +++
    chalk_bold (Js.nat_to_string
                  (match ApplyVersionResults.components result with
                   | Some components => length components
                   | None => 0
                   end)) +++
    nl +++ "Total Unchanged: " +++
    chalk_bold (Js.nat_to_string
                  (match ApplyVersionResults.failedComponents result with
                   | Some failed =>
                       length (filter FailedComponent.unchangedLegitimately failed)
                   | None => 0
                   end)) +++
    nl +++ "Total Failed: " +++
    chalk_bold (Js.nat_to_string
                  (match ApplyVersionResults.failedComponents result with
                   | Some failed =>
                       length (filter (fun f => negb (FailedComponent.unchangedLegitimately f))
                                      failed)
                   | None => 0
                   end)) +++
    nl +++ "Total Snapped: " +++
    chalk_bold (Js.nat_to_string
                  (match ApplyVersionResults.mergeSnapResults result with
                   | Some results =>
                       length (snappedComponents results) + length (autoSnappedResults results)
                   | None => 0
                   end)) +++
    nl +++ "Total Removed: " +++ chalk_bold "0".
Proof.
  intros shown.
  assert (Hconflict : MergeReport.getConflictSummary shown = "").
  { unfold MergeReport.getConflictSummary. simpl.
    now destruct (ApplyVersionResults.components result) as [[|c cs]|]. }
  split; [unfold MergeReport.mergeReport; now rewrite Hconflict|].
  split; [assumption|]. split; [reflexivity|]. split; [reflexivity|].
  unfold MergeReport.getSummary, MergeReport.merged, MergeReport.unchangedLegitimately,
    MergeReport.failedToMerge, MergeReport.autoSnapped, MergeReport.removedCount.
  subst shown.
  cbn [MergeCmd.reported ApplyVersionResults.components ApplyVersionResults.failedComponents
       ApplyVersionResults.mergeSnapResults ApplyVersionResults.removedComponents].
  now destruct (ApplyVersionResults.mergeSnapResults result).
Qed.

Lemma failed_totals (r : ApplyVersionResults.t) :
  MergeReport.unchangedLegitimately r + MergeReport.failedToMerge r
  = match ApplyVersionResults.failedComponents r with
    | Some failed => length failed
    | None => 0
    end.
Proof.
  unfold MergeReport.unchangedLegitimately, MergeReport.failedToMerge.
  destruct (ApplyVersionResults.failedComponents r) as [failed|]; [|reflexivity].
  apply TagRender.filter_partition_length.
Qed.

(** The two totals of the failed components add up to their number:
    each failed component is counted once, as unchanged or as failed. *)
Theorem merge_failed_totals_partition (r : ApplyVersionResults.t) :
  MergeReport.unchangedLegitimately r + MergeReport.failedToMerge r
  = match ApplyVersionResults.failedComponents r with
    | Some failed => length failed
    | None => 0
    end.
Proof.
  unfold MergeReport.unchangedLegitimately, MergeReport.failedToMerge.
  destruct (ApplyVersionResults.failedComponents r) as [failed|]; [|reflexivity].
  induction failed as [|f failed IH]; [reflexivity|].
  simpl. destruct (FailedComponent.unchangedLegitimately f); simpl; lia.
Qed.

(** The number of entries of the failure listing: without [verbose] it
    is the total of the failed components of the summary, with
    [verbose] the number of all the failed components. *)
Theorem merge_failure_listing_size (r : ApplyVersionResults.t) failed :
  ApplyVersionResults.failedComponents r = Some failed ->
  length (MergeReport.failure_listing r failed)
  = if ApplyVersionResults.verbose r
    then MergeReport.unchangedLegitimately r + MergeReport.failedToMerge r
    else MergeReport.failedToMerge r.
Proof.
  intros Hfailed.
  destruct (ApplyVersionResults.verbose r) eqn:Hv.
  - rewrite (MergeReportFacts.listing_verbose _ _ Hv), length_map.
    now rewrite failed_totals, Hfailed.
  - rewrite (MergeReportFacts.listing_quiet _ _ Hv), length_map.
    unfold MergeReport.failedToMerge. now rewrite Hfailed.
Qed.

Lemma legitimately_skipped_line_nonempty n :
  MergeReport.legitimately_skipped_line n <> "".
Proof.
  unfold MergeReport.legitimately_skipped_line.
  apply MergeReportFacts.append_nonempty. discriminate.
Qed.

(** Failures and removals are never passed over in silence: the failure
    output is empty only when no component has failed, and the output
    for the removed components only when none was removed. *)
Theorem merge_outputs_empty_iff (r : ApplyVersionResults.t) (removed : option (list BitId)) :
  (MergeReport.getFailureOutput r = "" <->
   ApplyVersionResults.failedComponents r = None \/
   ApplyVersionResults.failedComponents r = Some []) /\
  (MergeReport.getRemovedOutput removed = "" <-> removed = None \/ removed = Some []).
Proof.
  split; split.
  - unfold MergeReport.getFailureOutput.
    destruct (ApplyVersionResults.failedComponents r) as [[|f failed]|]; auto.
    cbv zeta. destruct (_ =? "")%string.
    + intros H. now apply legitimately_skipped_line_nonempty in H.
    + intros H. discriminate H.
  - unfold MergeReport.getFailureOutput. now intros [-> | ->].
  - unfold MergeReport.getRemovedOutput.
    destruct removed as [[|c cs]|]; auto. intros H. discriminate H.
  - now intros [-> | ->].
Qed.

Lemma compact_nil_iff l :
  compact l = [] <-> forall x, In x l -> x = None \/ x = Some "".
Proof.
  induction l as [|[s|] l IH]; simpl.
  - split; [intros _ x []|reflexivity].
  - destruct (s =? "") eqn:E.
    + apply String.eqb_eq in E. subst s. rewrite IH. split.
      * intros H x [<-|Hx]; auto.
      * intros H x Hx. apply H. now right.
    + split; [discriminate|].
      intros H. destruct (H (Some s) (or_introl eq_refl)) as [Hn|Hs]; [discriminate|].
      injection Hs as ->. discriminate.
  - rewrite IH. split.
    + intros H x [<-|Hx]; auto.
    + intros H x Hx. apply H. now right.
Qed.

Lemma conflict_files_nil_iff (files : list (string * string)) :
  compact (map MergeReport.conflict_line files) = [] <->
  forall entry, In entry files -> snd entry <> FileStatus_manual.
Proof.
  rewrite compact_nil_iff. split.
  - intros H [file status] Hin Hs. simpl in Hs. subst status.
    destruct (H (MergeReport.conflict_line (file, FileStatus_manual))) as [Hn|Hn].
    + apply in_map_iff. eauto.
    + unfold MergeReport.conflict_line in Hn. now rewrite String.eqb_refl in Hn.
    + unfold MergeReport.conflict_line in Hn. rewrite String.eqb_refl in Hn.
      injection Hn as Hn. unfold MergeReport.tab in Hn. discriminate Hn.
  - intros H x Hx. apply in_map_iff in Hx. destruct Hx as ([file status] & <- & Hin).
    left. unfold MergeReport.conflict_line.
    destruct (status =? FileStatus_manual) eqn:E; [|reflexivity].
    apply String.eqb_eq in E. now elim (H _ Hin).
Qed.

(** The summary of the files with conflicts is empty exactly when no
    file of any component is left to a manual merge: a component with
    such a file is never left out. *)
Theorem conflict_summary_empty_iff (components : list ApplyVersionResult.t) :
  MergeReport.conflictSummaryReport components = "" <->
  forall component entry,
    In component components ->
    In entry (ApplyVersionResult.filesStatus component) ->
    snd entry <> FileStatus_manual.
Proof.
  unfold MergeReport.conflictSummaryReport.
  match goal with
  | |- Js.join nl (compact (map ?f components)) = "" <-> _ => set (line := f)
  end.
  assert (Hline : forall component,
             (line component = None \/ line component = Some "") <->
             forall entry, In entry (ApplyVersionResult.filesStatus component) ->
                           snd entry <> FileStatus_manual).
  { intros component. rewrite <- conflict_files_nil_iff. subst line. cbv beta zeta.
    destruct (compact (map MergeReport.conflict_line
                           (ApplyVersionResult.filesStatus component))) as [|x l].
    - split; auto.
    - split; [|discriminate]. intros [H|H]; [discriminate|].
      injection H as H.
      apply MergeReportFacts.append_nonempty in H; [contradiction|discriminate]. }
  split.
  - intros Hjoin component entry Hc.
    apply Hline.
    assert (Hnil : compact (map line components) = []).
    { pose proof (MergeReportFacts.compact_nonempty (map line components)) as Hall.
      destruct (compact (map line components)) as [|x l]; [reflexivity|].
      inversion Hall as [|? ? Hx _]; subst.
      now apply (MergeReportFacts.join_nonempty nl x l) in Hx. }
    rewrite compact_nil_iff in Hnil. apply Hnil. now apply in_map.
  - intros H.
    assert (Hnil : compact (map line components) = []).
    { apply compact_nil_iff. intros x Hx. apply in_map_iff in Hx.
      destruct Hx as (component & <- & Hc). apply Hline. intros entry. now apply H. }
    now rewrite Hnil.
Qed.

(** The report of a merge in which nothing happened is the summary
    alone. *)
Theorem merge_report_of_nothing (r : ApplyVersionResults.t) :
  (ApplyVersionResults.components r = None \/ ApplyVersionResults.components r = Some []) ->
  (ApplyVersionResults.failedComponents r = None \/
   ApplyVersionResults.failedComponents r = Some []) ->
  (ApplyVersionResults.removedComponents r = None \/
   ApplyVersionResults.removedComponents r = Some []) ->
  ApplyVersionResults.mergeSnapError r = None ->
  ApplyVersionResults.mergeSnapResults r = None ->
  ApplyVersionResults.workspaceDepsUpdates r = None ->
  MergeReport.configMergeWithConflicts r = [] ->
  MergeReport.mergeReport r = MergeReport.getSummary r.
Proof.
  intros Hc Hf Hr He Hs Hw Hcm.
  unfold MergeReport.mergeReport, MergeReport.getSuccessOutput, MergeReport.getFailureOutput,
    MergeReport.getSnapsOutput, MergeReport.getWorkspaceDepsOutput,
    MergeReport.getConfigMergeConflictSummary, MergeReport.getConflictSummary.
  rewrite He, Hs, Hw, Hcm.
  destruct Hc as [-> | ->], Hf as [-> | ->], Hr as [-> | ->]; reflexivity.
Qed.

End MergeSections.
End MergeSections.

Module MergeErrorFacts.
Section MergeErrorFacts.
Context {chalk : Chalk}.

(** The outputs for an installation error and for a compilation error
    are empty exactly when there is no error. *)
Theorem error_outputs_empty_iff (installationError compilationError : option string) :
  (MergeErrors.installationErrorOutput installationError = "" <-> installationError = None) /\
  (MergeErrors.compilationErrorOutput compilationError = "" <-> compilationError = None).
Proof.
  split; split.
  - destruct installationError; [discriminate|reflexivity].
  - now intros ->.
  - destruct compilationError; [discriminate|reflexivity].
  - now intros ->.
Qed.

End MergeErrorFacts.
End MergeErrorFacts.

(** ** The further properties on the small workspace *)

Module Samples.

(** [bit tag --all] with [ignoreUnresolvedDependencies: false] *)
Lemma tag_removed_flag_refused_first_witness :
  let o := TagFlags.of_object
             [("ignoreUnresolvedDependencies", Js.Boolean false); ("all", Js.Boolean true)] in
  TagCmd.report (host := Demo.host) (snapping := Demo.snapping) (chalk := Demo.chalk)
    None o Demo.tag_world
  = (Throw (BitError TagCmd.msg_ignore_unresolved), Demo.tag_world).
Proof.
  intros o.
  apply (TagChecks.tag_removed_flag_refused_first
           (host := Demo.host) (snapping := Demo.snapping) (chalk := Demo.chalk)
           None o Demo.tag_world).
  reflexivity.
Defined.

(** [bit tag --ignore-issues] *)
Lemma tag_bare_ignore_issues_refused_witness :
  let o := TagFlags.of_object [("ignoreIssues", Js.Boolean true)] in
  TagCmd.report (host := Demo.host) (snapping := Demo.snapping) (chalk := Demo.chalk)
    None o Demo.tag_world
  = (Throw (BitError TagCmd.msg_ignore_issues), Demo.tag_world).
Proof.
  intros o.
  apply (TagChecks.tag_bare_ignore_issues_refused
           (host := Demo.host) (snapping := Demo.snapping) (chalk := Demo.chalk)
           None o Demo.tag_world); reflexivity.
Defined.

(** [bit tag ui/button --all 1.0.0 --force --patch --minor]: the
    warnings are printed although the release flags are refused. *)
Lemma tag_warnings_witness :
  let o := TagFlags.of_object
             [("all", Js.Str "1.0.0"); ("force", Js.Boolean true);
              ("patch", Js.Boolean true); ("minor", Js.Boolean true)] in
  snd (TagCmd.preflight (host := Demo.host) (Some ["ui/button"]) o Demo.tag_world)
  = TagCmd.warned Demo.tag_world
      [TagCmd.msg_message_mandatory; TagCmd.msg_all_deprecated; TagCmd.msg_force_deprecated].
Proof.
  intros o.
  apply (TagChecks.tag_warnings (host := Demo.host) (Some ["ui/button"]) o Demo.tag_world);
    reflexivity.
Defined.

(** [bit tag --increment huge --patch --minor]: the release flags are
    reported, not the level. *)
Lemma tag_first_failing_check_witness :
  let o := TagFlags.of_object
             [("increment", Js.Str "huge"); ("patch", Js.Boolean true);
              ("minor", Js.Boolean true)] in
  exists e,
    fst (TagCmd.preflight (host := Demo.host) None o Demo.tag_world) = Throw e /\
    e = BitError TagCmd.msg_one_release_flag.
Proof.
  intros o. eexists. split; [reflexivity|].
  exact (TagChecks.tag_first_failing_check (host := Demo.host) None o Demo.tag_world
           _ eq_refl).
Defined.

(** [bit tag --pre-release] *)
Lemma tag_release_type_always_valid_witness :
  let o := TagFlags.of_object [("preRelease", Js.Boolean true)] in
  exists params s,
    fst (TagCmd.preflight (host := Demo.host) None o Demo.tag_world) = Ok params /\
    TagParams.releaseType params = Js.Str s /\ In s RELEASE_TYPES.
Proof.
  intros o. eexists.
  match goal with
  | |- exists s, fst ?run = Ok ?p /\ _ =>
      destruct (TagRelease.tag_release_type_always_valid
                  (host := Demo.host)
                  None o Demo.tag_world p eq_refl) as (s & Hs & Hin)
  end.
  exists s. split; [reflexivity|]. split; assumption.
Defined.

(** [bit tag --increment prepatch --prerelease-id dev --pre-release rc] *)
Lemma tag_prerelease_id_with_prerelease_level_witness :
  let o := TagFlags.of_object
             [("increment", Js.Str "prepatch"); ("prereleaseId", Js.Str "dev");
              ("preRelease", Js.Str "rc")] in
  exists params,
    fst (TagCmd.preflight (host := Demo.host) None o Demo.tag_world) = Ok params /\
    TagParams.preReleaseId params = Js.Str "dev".
Proof.
  intros o. eexists. split; [reflexivity|].
  match goal with
  | |- TagParams.preReleaseId ?p = _ =>
      exact (proj2 (TagRelease.tag_prerelease_id_with_prerelease_level
                  (host := Demo.host)
                      None o Demo.tag_world p eq_refl eq_refl))
  end.
Defined.

(** [bit tag --pre-release dev] and
    [bit tag --increment prerelease --prerelease-id dev] *)
Lemma tag_pre_release_is_sugar_witness :
  TagCmd.report (host := Demo.host) (snapping := Demo.snapping) (chalk := Demo.chalk)
    None (TagFlags.of_object [("preRelease", Js.Str "dev")]) Demo.edited_world
  = TagCmd.report (host := Demo.host) (snapping := Demo.snapping) (chalk := Demo.chalk)
      None
      (TagFlags.of_object [("increment", Js.Str "prerelease"); ("prereleaseId", Js.Str "dev")])
      Demo.edited_world.
Proof.
  apply (TagRelease.tag_pre_release_is_sugar
           (host := Demo.host) (snapping := Demo.snapping) (chalk := Demo.chalk)
           None (TagFlags.of_object []) Demo.edited_world "dev").
  discriminate.
Defined.

(** [bit tag --disable-deploy-pipeline] *)
Lemma tag_disable_pipeline_alias_witness :
  let o := TagFlags.of_object [("disableDeployPipeline", Js.Boolean true)] in
  exists params,
    fst (TagCmd.preflight (host := Demo.host) None o Demo.tag_world) = Ok params /\
    Js.truthy (TagParams.disableTagAndSnapPipelines params) = true.
Proof.
  intros o. eexists. split; [reflexivity|].
  match goal with
  | |- Js.truthy (TagParams.disableTagAndSnapPipelines ?p) = _ =>
      exact (eq_trans (TagOptions.tag_disable_pipeline_alias
                         (host := Demo.host) None o Demo.tag_world p eq_refl)
                      eq_refl)
  end.
Defined.

(** Two tagged components, one of them new. *)
Lemma tag_added_and_changed_partition_witness :
  In "ui/card" (TagOutput.addedComponents Sample.tagged_without_auto) /\
  ~ In "ui/card" (TagOutput.changedComponents Sample.tagged_without_auto).
Proof.
  destruct (proj2 (TagRender.tag_added_and_changed_partition Sample.tagged_without_auto)
              "ui/card") as [(Ha & Hc & _)|(_ & _ & Hs)].
  - simpl. tauto.
  - now split.
  - discriminate Hs.
Defined.

(** The same result is not rendered: [autoTaggedResults] is missing. *)
Lemma tag_render_type_error_witness :
  exists msg,
    TagCmd.renderResults (host := Demo.host) (chalk := Demo.chalk) Sample.tagged_without_auto
    = Throw (TypeError msg).
Proof.
  apply (TagRender.tag_render_type_error (host := Demo.host) (chalk := Demo.chalk)
           Sample.tagged_without_auto); [reflexivity|discriminate].
Defined.

(** [bit merge ui/button ui/card --build --theirs]: the build flag is
    not looked at, the feature being off. *)
Lemma merge_engine_call_witness :
  let o := MergeFlags.of_object [("theirs", Js.Boolean true); ("build", Js.Boolean false)] in
  exists args,
    Eff.trace (snd (MergeCmd.report (host := Demo.host) (merging := Demo.merging)
                      (chalk := Demo.chalk) (Some ["ui/button"; "ui/card"]) o
                      Demo.merge_world))
    = [MergeInvoked args] /\
    MergeArgs.mergeStrategy args = strategy_theirs /\
    MergeArgs.build args = Js.Boolean true.
Proof.
  intros o.
  destruct (MergeCall.merge_engine_call
              (host := Demo.host) (merging := Demo.merging) (chalk := Demo.chalk)
              (Some ["ui/button"; "ui/card"]) o Demo.merge_world strategy_theirs
              eq_refl eq_refl eq_refl)
    as (args & Htrace & _ & Hstrategy & _ & _ & _ & _ & _ & _ & Hbuild).
  exists args. split; [exact Htrace|]. split; [exact Hstrategy|exact Hbuild].
Defined.

(** One legitimately unchanged component, reported without [verbose]:
    nothing is listed. *)
Lemma merge_failure_listing_size_witness :
  length (MergeReport.failure_listing (host := Demo.host) (chalk := Demo.chalk)
            (Demo.failed_result false) [Demo.legitimate]) = 0.
Proof.
  rewrite (MergeSections.merge_failure_listing_size (host := Demo.host) (chalk := Demo.chalk)
             (Demo.failed_result false) [Demo.legitimate] eq_refl).
  reflexivity.
Defined.

Lemma merge_report_of_nothing_witness :
  MergeReport.mergeReport (host := Demo.host) (chalk := Demo.chalk) Sample.nothing_merged
  = MergeReport.getSummary (host := Demo.host) (chalk := Demo.chalk) Sample.nothing_merged.
Proof.
  apply (MergeSections.merge_report_of_nothing (host := Demo.host) (chalk := Demo.chalk)
           Sample.nothing_merged); auto.
Defined.

End Samples.
